(** * Challenge tracker: lifecycle and completion accounting

    A shallow embedding of [app.js]: the [DateUtils] and [Store] objects and
    the handlers that call them ([handleChallengeSubmit], [toggleTask],
    [renderDailyTab], [renderStatsTab], [renderArchiveDetail],
    [confirmDeletePending], [confirmClearAll]).

    Conventions of the embedding.
    - A JavaScript [Date] is its time value: milliseconds since the epoch,
      an integer ([Z]).  Local-time methods go through the host time zone,
      which is explicit here ([TimeZone]).
    - [localStorage] holds three keys.  [JSON.stringify] followed by
      [JSON.parse] is the identity on the values the program stores
      (numbers, booleans, strings, arrays and plain objects), so each key is
      a typed slot that is either absent or holds the value.
    - A plain object used as a map from indices to values is a [gmap Z].
    - The start date is the value of a date input: a date-only string or
      the empty string ([DateString]).  A number that may be [NaN], and a
      [Date] that may be invalid, is an [option Z] with [None] for [NaN]. *)

From Stdlib Require Import ZArith Lia List.
From stdpp Require Import base option list gmap strings.

Local Open Scope Z_scope.

(** ** Date utilities *)

(** The value of [<input type="date">], which is what the program stores as
    [startDate]: a date-only string [YYYY-MM-DD], represented by the number
    of its calendar day (days since 1970-01-01), or the empty string when
    the field has been cleared (the field is not [required]). *)
Inductive DateString := ISODate (day : Z) | NoDate.

Module DateUtils.

(** [1000 * 60 * 60 * 24], the divisor written in [daysBetween]. *)
Definition msPerDay : Z := 1000 * 60 * 60 * 24.

(** The host time zone: ECMAScript's [LocalTZA(t, isUTC)], the offset of
    local time from UTC in milliseconds, asked either at a UTC time value
    ([isUTC = true]) or at a local one ([isUTC = false]). *)
Record TimeZone := { LocalTZA : Z -> bool -> Z }.

Definition LocalTime (tz : TimeZone) (t : Z) : Z := t + LocalTZA tz t true.
Definition UTC (tz : TimeZone) (t : Z) : Z := t - LocalTZA tz t false.

(** [Day(t) = floor(t / msPerDay)] and [TimeWithinDay(t) = t modulo msPerDay]. *)
Definition Day (t : Z) : Z := t / msPerDay.
Definition TimeWithinDay (t : Z) : Z := t mod msPerDay.

(** The calendar day (days since 1970-01-01) that the clock on the wall
    shows at time value [t]. *)
Definition localDay (tz : TimeZone) (t : Z) : Z := Day (LocalTime tz t).

(** [date.setHours(0, 0, 0, 0)]: keep the local calendar day, set the local
    time of day to zero, convert back to a time value. *)
Definition setHours0 (tz : TimeZone) (t : Z) : Z :=
  UTC tz (Day (LocalTime tz t) * msPerDay).

(** [date.setDate(date.getDate() + n)]: move the local calendar day by [n],
    keep the local time of day. *)
Definition addDate (tz : TimeZone) (t n : Z) : Z :=
  let lt := LocalTime tz t in
  UTC tz ((Day lt + n) * msPerDay + TimeWithinDay lt).

(** [new Date(dateString)] for a date-only ISO string [YYYY-MM-DD], the
    format an [<input type="date">] yields: ECMAScript reads a date-only
    form as UTC midnight of that day.  The string is represented by the
    number of its calendar day (days since 1970-01-01). *)
Definition newDate (dateString : Z) : Z := dateString * msPerDay.

(** [new Date(dateString)] for any value of the date input: for the empty
    string the result is an Invalid Date, whose time value is [NaN]. *)
Definition newDateString (dateString : DateString) : option Z :=
  match dateString with
  | ISODate day => Some (newDate day)
  | NoDate => None
  end.

(** [getToday()]: [new Date()] (the clock, [now]) with the hours cleared. *)
Definition getToday (tz : TimeZone) (now : Z) : Z := setHours0 tz now.

(** [parseDate(dateString)] for a date-only string. *)
Definition parseDate (tz : TimeZone) (dateString : Z) : Z :=
  setHours0 tz (newDate dateString).

(** [parseDate(dateString)] for any value of the date input: [setHours]
    leaves an Invalid Date invalid. *)
Definition parseDateString (tz : TimeZone) (dateString : DateString) : option Z :=
  setHours0 tz <$> newDateString dateString.

(** [a < b] and [a >= b] for a valid date [a] and a date [b] that may be
    invalid: every comparison with [NaN] is false. *)
Definition lessThan (a : Z) (b : option Z) : bool :=
  match b with Some b => a <? b | None => false end.

Definition atLeast (a : Z) (b : option Z) : bool :=
  match b with Some b => b <=? a | None => false end.

(** [toISODate(date)]: the part of [date.toISOString()] before the [T],
    which is the UTC calendar day of the time value (again as a day
    number). *)
Definition toISODate (date : Z) : Z := Day date.

(** [daysBetween(date1, date2)] for two valid dates: [Math.floor] of the
    quotient; on integers this is [Z.div], which rounds towards minus
    infinity.  The source computes in doubles: the difference is exact up
    to 2^53 in magnitude, and the rounded quotient then has the same floor
    as the exact one; this covers all time values up to 2^52 in magnitude
    ([exactTime] below), hence every date the program handles. *)
Definition daysBetween (date1 date2 : Z) : Z :=
  let diffTime := date2 - date1 in
  diffTime / msPerDay.

(** A zone whose offset never changes (no daylight saving). *)
Definition fixedZone (offset : Z) : TimeZone := {| LocalTZA := fun _ _ => offset |}.

Definition msPerHour : Z := 1000 * 60 * 60.

(** New York around the spring transition of 2024: UTC-5 until
    2024-03-10T07:00:00Z (02:00 local), UTC-4 from then on.  Asked at a
    local time value, the skipped hour 02:00-03:00 is read with the offset
    in force before the transition, as ECMAScript prescribes. *)
Definition newYork2024 : TimeZone :=
  {| LocalTZA := fun t isUTC =>
       if isUTC
       then if t <? 1710054000000 then -5 * msPerHour else -4 * msPerHour
       else if t <? 1710039600000 then -5 * msPerHour else -4 * msPerHour |}.

End DateUtils.

(** ** Stored data *)

Record Task := { emoji : string; name : string; description : string }.

(** The object built by [handleChallengeSubmit].  [startDate] is the value
    of the date input, [createdAt] the creation timestamp. *)
Record Challenge := {
  totalDays : Z;
  pointThreshold : Z;
  pointReward : Z;
  tasks : list Task;
  startDate : DateString;
  createdAt : Z
}.

(** [{ ...challenge, completions, archivedAt }]: the challenge's own fields
    spread into the archive entry, then the two added fields. *)
Record ArchivedChallenge := {
  a_totalDays : Z;
  a_pointThreshold : Z;
  a_pointReward : Z;
  a_tasks : list Task;
  a_startDate : DateString;
  a_createdAt : Z;
  a_completions : gmap Z (gmap Z bool);
  archivedAt : Z
}.

(** The three keys of [localStorage]; [None] is an absent key. *)
Record LocalStorage := {
  activeChallenge : option Challenge;
  completions : option (gmap Z (gmap Z bool));
  archive : option (list ArchivedChallenge)
}.

(** [localStorage.clear()]. *)
Definition localStorage_clear (ls : LocalStorage) : LocalStorage :=
  {| activeChallenge := None; completions := None; archive := None |}.

(** ** The data store *)

Module Store.
Import DateUtils.

Definition getChallenge (ls : LocalStorage) : option Challenge :=
  activeChallenge ls.

Definition saveChallenge (challenge : Challenge) (ls : LocalStorage) : LocalStorage :=
  {| activeChallenge := Some challenge;
     completions := completions ls;
     archive := archive ls |}.

Definition getCompletions (ls : LocalStorage) : gmap Z (gmap Z bool) :=
  default ∅ (completions ls).

(** [saveCompletion]: read the map, create the day's object when the day
    has none, set the task's entry in the day's object, write the map. *)
Definition saveCompletion (dayIndex taskIndex : Z) (completed : bool)
    (ls : LocalStorage) : LocalStorage :=
  let completions0 := getCompletions ls in
  let completions1 :=
    match completions0 !! dayIndex with
    | None => <[dayIndex := ∅]> completions0
    | Some _ => completions0
    end in
  let completions2 := alter (<[taskIndex := completed]>) dayIndex completions1 in
  {| activeChallenge := activeChallenge ls;
     completions := Some completions2;
     archive := archive ls |}.

Definition getDayCompletion (dayIndex : Z) (ls : LocalStorage) : gmap Z bool :=
  let completions := getCompletions ls in
  default ∅ (completions !! dayIndex).

Definition getArchive (ls : LocalStorage) : list ArchivedChallenge :=
  default [] (archive ls).

Definition archiveEntry (challenge : Challenge)
    (completions : gmap Z (gmap Z bool)) (now : Z) : ArchivedChallenge :=
  {| a_totalDays := totalDays challenge;
     a_pointThreshold := pointThreshold challenge;
     a_pointReward := pointReward challenge;
     a_tasks := tasks challenge;
     a_startDate := startDate challenge;
     a_createdAt := createdAt challenge;
     a_completions := completions;
     archivedAt := now |}.

(** [archiveChallenge]; [now] is the clock read by [new Date()]. *)
Definition archiveChallenge (now : Z) (ls : LocalStorage) : LocalStorage :=
  let challenge := getChallenge ls in
  let completions := getCompletions ls in
  match challenge with
  | None => ls
  | Some challenge =>
      let archive := getArchive ls ++ [archiveEntry challenge completions now] in
      {| activeChallenge := None;
         completions := None;
         archive := Some archive |}
  end.

(** [clearAll]: the two [removeItem] calls. *)
Definition clearAll (ls : LocalStorage) : LocalStorage :=
  {| activeChallenge := None;
     completions := None;
     archive := archive ls |}.

(** [getCurrentDayIndex]: a number, [NaN] ([None]) when the stored start
    date does not parse: [NaN] goes through the subtraction, the division
    and [Math.floor] of [daysBetween], and through [Math.min] and
    [Math.max]. *)
Definition getCurrentDayIndex (tz : TimeZone) (now : Z) (ls : LocalStorage)
    : option Z :=
  match getChallenge ls with
  | None => Some 0
  | Some challenge =>
      let startDate := parseDateString tz (startDate challenge) in
      let today := getToday tz now in
      let daysPassed := (λ startDate, daysBetween startDate today) <$> startDate in
      (λ daysPassed, Z.max 0 (Z.min daysPassed (totalDays challenge - 1)))
        <$> daysPassed
  end.

Inductive Status := pending | active | completed.

Definition getChallengeStatus (tz : TimeZone) (now : Z) (ls : LocalStorage)
    : option Status :=
  match getChallenge ls with
  | None => None
  | Some challenge =>
      let startDate := parseDateString tz (startDate challenge) in
      let today := getToday tz now in
      let endDate :=
        (λ startDate, addDate tz startDate (totalDays challenge)) <$> startDate in
      if lessThan today startDate then Some pending
      else if atLeast today endDate then Some completed
      else Some active
  end.

Definition getDaysUntilStart (tz : TimeZone) (now : Z) (ls : LocalStorage)
    : option Z :=
  match getChallenge ls with
  | None => Some 0
  | Some challenge =>
      let startDate := parseDateString tz (startDate challenge) in
      let today := getToday tz now in
      (λ startDate, daysBetween today startDate) <$> startDate
  end.

End Store.

(** ** Application state and handlers *)

Inductive Tab := setup | daily | stats | settings.

(** The three module-level variables and the storage they act on. *)
Record AppState := {
  localStorage : LocalStorage;
  currentTab : Tab;
  currentDayIndex : Z;
  currentArchiveIndex : option Z
}.

Definition withStorage (ls : LocalStorage) (s : AppState) : AppState :=
  {| localStorage := ls;
     currentTab := currentTab s;
     currentDayIndex := currentDayIndex s;
     currentArchiveIndex := currentArchiveIndex s |}.

Definition withDayIndex (i : Z) (s : AppState) : AppState :=
  {| localStorage := localStorage s;
     currentTab := currentTab s;
     currentDayIndex := i;
     currentArchiveIndex := currentArchiveIndex s |}.

Definition withTab (t : Tab) (s : AppState) : AppState :=
  {| localStorage := localStorage s;
     currentTab := t;
     currentDayIndex := currentDayIndex s;
     currentArchiveIndex := currentArchiveIndex s |}.

Definition withArchiveIndex (i : option Z) (s : AppState) : AppState :=
  {| localStorage := localStorage s;
     currentTab := currentTab s;
     currentDayIndex := currentDayIndex s;
     currentArchiveIndex := i |}.

(** [Object.keys(o)] and [Object.values(o)] of an index-keyed object. *)
Definition ObjectKeys {A} (o : gmap Z A) : list Z := (map_to_list o).*1.
Definition ObjectValues {A} (o : gmap Z A) : list A := (map_to_list o).*2.

(** [Boolean], the truthiness test passed to [filter]; the stored values are
    booleans. *)
Definition Boolean (b : bool) : bool := b.

(** [Object.values(dayCompletion).filter(Boolean).length]. *)
Definition completedCount (dayCompletion : gmap Z bool) : Z :=
  Z.of_nat (length (List.filter Boolean (ObjectValues dayCompletion))).

(** [completedCount >= challenge.pointThreshold], as in [renderDailyTab]. *)
Definition pointEarned (challenge : Challenge) (dayCompletion : gmap Z bool) : bool :=
  pointThreshold challenge <=? completedCount dayCompletion.

(** [dayCompletion[taskIndex] || false]. *)
Definition currentState (dayCompletion : gmap Z bool) (taskIndex : Z) : bool :=
  default false (dayCompletion !! taskIndex).

Section Handlers.
Import DateUtils.
Variable tz : TimeZone.

(** What [renderDailyTab] does to the state: nothing without a challenge or
    while it is pending, otherwise it brings [currentDayIndex] within
    bounds.  The markup it writes is not part of the state. *)
Definition renderDailyTab (now : Z) (s : AppState) : AppState :=
  let challenge := Store.getChallenge (localStorage s) in
  let status := Store.getChallengeStatus tz now (localStorage s) in
  match challenge with
  | None => s
  | Some challenge =>
      match status with
      | Some Store.pending => s
      | _ =>
          withDayIndex
            (Z.max 0 (Z.min (currentDayIndex s) (totalDays challenge - 1))) s
      end
  end.

(** The point flag [renderDailyTab] shows for the day on screen. *)
Definition dayPointEarned (challenge : Challenge) (dayIndex : Z)
    (ls : LocalStorage) : bool :=
  pointEarned challenge (Store.getDayCompletion dayIndex ls).

Definition renderCurrentTab (now : Z) (s : AppState) : AppState :=
  match currentTab s with
  | daily => renderDailyTab now s
  | _ => s
  end.

Definition switchTab (tabName : Tab) (now : Z) (s : AppState) : AppState :=
  renderCurrentTab now (withTab tabName s).

(** What [renderSetupTab] puts on screen. *)
Inductive SetupView :=
| LockedSummary (challenge : Challenge)
| ChallengeForm (challenge : option Challenge) (isEditing : bool).

Definition renderSetupTab (now : Z) (s : AppState) : SetupView :=
  let challenge := Store.getChallenge (localStorage s) in
  let status := Store.getChallengeStatus tz now (localStorage s) in
  match challenge, status with
  | Some challenge, Some Store.active => LockedSummary challenge
  | Some challenge, Some Store.pending => ChallengeForm (Some challenge) true
  | _, _ => ChallengeForm None false
  end.

(** The form fields read by [handleChallengeSubmit]; [taskItems] are the
    task rows with their text already trimmed. *)
Record Form := {
  input_days : Z;
  input_threshold : Z;
  input_points : Z;
  input_start_date : DateString;
  taskItems : list Task
}.

Inductive Alert :=
| PleaseAddTask
| GoalExceedsTasks (taskCount : nat).

Definition nonEmpty (str : string) : bool :=
  match str with EmptyString => false | _ => true end.

(** [handleChallengeSubmit]: returns the new state and the alert shown, if
    any.  No branch looks at the challenge status. *)
Definition handleChallengeSubmit (form : Form) (now : Z) (s : AppState)
    : AppState * option Alert :=
  let tasks := List.filter (fun item => nonEmpty (name item)) (taskItems form) in
  if (length tasks =? 0)%nat then (s, Some PleaseAddTask)
  else if Z.of_nat (length tasks) <? input_threshold form
  then (s, Some (GoalExceedsTasks (length tasks)))
  else
    let challenge :=
      {| totalDays := input_days form;
         pointThreshold := input_threshold form;
         pointReward := input_points form;
         tasks := tasks;
         startDate := input_start_date form;
         createdAt := now |} in
    let s1 := withStorage (Store.saveChallenge challenge (localStorage s)) s in
    let s2 := withDayIndex 0 s1 in
    (switchTab daily now s2, None).

Definition navigateDay (delta : Z) (now : Z) (s : AppState) : AppState :=
  match Store.getChallenge (localStorage s) with
  | None => s
  | Some challenge =>
      let newIndex := currentDayIndex s + delta in
      if (0 <=? newIndex) && (newIndex <? totalDays challenge)
      then renderDailyTab now (withDayIndex newIndex s)
      else s
  end.

Definition toggleTask (taskIndex : Z) (now : Z) (s : AppState) : AppState :=
  match Store.getChallenge (localStorage s) with
  | None => s
  | Some _ =>
      let dayCompletion := Store.getDayCompletion (currentDayIndex s) (localStorage s) in
      let currentState := currentState dayCompletion taskIndex in
      let ls := Store.saveCompletion (currentDayIndex s) taskIndex
                  (negb currentState) (localStorage s) in
      renderDailyTab now (withStorage ls s)
  end.

(** The confirmed handlers; [ok], [ok1], [ok2] are the answers to the
    [confirm] dialogs. *)
Definition confirmUnlock (ok : bool) (now : Z) (s : AppState) : AppState :=
  if ok then
    let s1 := withStorage (Store.archiveChallenge now (localStorage s)) s in
    switchTab setup now (withDayIndex 0 s1)
  else s.

Definition confirmDeletePending (ok : bool) (now : Z) (s : AppState) : AppState :=
  if ok then
    let s1 := withStorage (Store.clearAll (localStorage s)) s in
    switchTab setup now (withDayIndex 0 s1)
  else s.

Definition confirmClearAll (ok1 ok2 : bool) (now : Z) (s : AppState) : AppState :=
  if ok1 then
    if ok2 then
      let s1 := withStorage (localStorage_clear (localStorage s)) s in
      switchTab setup now (withArchiveIndex None (withDayIndex 0 s1))
    else s
  else s.

End Handlers.

(** ** Aggregate statistics *)

(** The two counters of the active-challenge loop in [renderStatsTab]. *)
Record LiveTotals := { totalPoints : Z; possiblePoints : Z }.

(** One pass of the loop body for day [i]. *)
Definition liveStep (challenge : Challenge) (completions : gmap Z (gmap Z bool))
    (acc : LiveTotals) (i : Z) : LiveTotals :=
  let dayComp := default ∅ (completions !! i) in
  let tasksCompleted := completedCount dayComp in
  if (0 <? length (ObjectKeys dayComp))%nat then
    {| totalPoints :=
         if pointThreshold challenge <=? tasksCompleted
         then totalPoints acc + 1 else totalPoints acc;
       possiblePoints := possiblePoints acc + 1 |}
  else acc.

(** [for (let i = 0; i < totalDays; i++)] over the stored completions. *)
Definition liveTotals (challenge : Challenge) (completions : gmap Z (gmap Z bool))
    : LiveTotals :=
  fold_left (liveStep challenge completions) (seqZ 0 (totalDays challenge))
    {| totalPoints := 0; possiblePoints := 0 |}.

(** The three counters of the loop in [renderArchiveDetail]. *)
Record ArchiveTotals := {
  ar_totalPoints : Z;
  totalTasksCompleted : Z;
  totalPossibleTasks : Z
}.

Definition archiveStep (archivedChallenge : ArchivedChallenge)
    (acc : ArchiveTotals) (i : Z) : ArchiveTotals :=
  let dayComp := default ∅ (a_completions archivedChallenge !! i) in
  let tasksCompleted := completedCount dayComp in
  {| ar_totalPoints :=
       if a_pointThreshold archivedChallenge <=? tasksCompleted
       then ar_totalPoints acc + 1 else ar_totalPoints acc;
     totalTasksCompleted := totalTasksCompleted acc + tasksCompleted;
     totalPossibleTasks :=
       totalPossibleTasks acc + Z.of_nat (length (a_tasks archivedChallenge)) |}.

Definition archiveTotals (archivedChallenge : ArchivedChallenge) : ArchiveTotals :=
  fold_left (archiveStep archivedChallenge)
    (seqZ 0 (a_totalDays archivedChallenge))
    {| ar_totalPoints := 0; totalTasksCompleted := 0; totalPossibleTasks := 0 |}.

(** ** Derived notions and concrete states

    The per-day conditions of the two loops, the pieces of a submission,
    and the states, clocks and zones at which the properties below are
    evaluated. *)

Definition sampleTask : Task :=
  {| emoji := "A"; name := "Read"; description := EmptyString |}.

(** A storage with all three records present: a three-day challenge, one
    completion, and one archived challenge. *)
Definition sampleChallenge : Challenge :=
  {| totalDays := 3; pointThreshold := 1; pointReward := 1;
     tasks := [sampleTask]; startDate := ISODate 19800; createdAt := 0 |}.

Definition sampleArchived : ArchivedChallenge :=
  Store.archiveEntry sampleChallenge {[ 0 := {[ 0 := true ]} ]} 1000.

Definition sampleStorage : LocalStorage :=
  {| activeChallenge := Some sampleChallenge;
     completions := Some {[ 0 := {[ 0 := true ]} ]};
     archive := Some [sampleArchived] |}.

Definition sampleState : AppState :=
  {| localStorage := sampleStorage; currentTab := settings;
     currentDayIndex := 0; currentArchiveIndex := None |}.

(** The scenario of the specification: three days, tasks A and B, both
    required.  A alone does not earn day 0, A and B do. *)
Definition scenarioChallenge : Challenge :=
  {| totalDays := 3; pointThreshold := 2; pointReward := 1;
     tasks := [ {| emoji := "A"; name := "A"; description := EmptyString |};
                {| emoji := "B"; name := "B"; description := EmptyString |} ];
     startDate := ISODate 19800; createdAt := 0 |}.

Definition scenarioStorage : LocalStorage :=
  {| activeChallenge := Some scenarioChallenge;
     completions := None; archive := None |}.

(** Whether the live loop of [renderStatsTab] adds a point for day [i]: the
    day's object has a key, and its count meets the threshold. *)
Definition liveCounts (challenge : Challenge)
    (completions : gmap Z (gmap Z bool)) (i : Z) : bool :=
  let dayComp := default ∅ (completions !! i) in
  (0 <? length (ObjectKeys dayComp))%nat
  && (pointThreshold challenge <=? completedCount dayComp).

(** Whether the loop of [renderArchiveDetail] adds a point for day [i]. *)
Definition archiveCounts (archivedChallenge : ArchivedChallenge) (i : Z) : bool :=
  a_pointThreshold archivedChallenge
  <=? completedCount (default ∅ (a_completions archivedChallenge !! i)).

(** Completions of the scenario challenge with a record for each of its
    three days. *)
Definition fullCompletions : gmap Z (gmap Z bool) :=
  {[ 0 := {[ 0 := true; 1 := true ]};
     1 := {[ 0 := true; 1 := false ]};
     2 := {[ 1 := true ]} ]}.

(** A storage holding only a challenge of [days] days whose start date
    string names day [start]. *)
Definition challengeStarting (start days : Z) : LocalStorage :=
  {| activeChallenge :=
       Some {| totalDays := days; pointThreshold := 1; pointReward := 1;
               tasks := [sampleTask]; startDate := ISODate start;
               createdAt := 0 |};
     completions := None; archive := None |}.

(** Bogota keeps UTC-5 all year. *)
Definition bogota : DateUtils.TimeZone :=
  DateUtils.fixedZone (-5 * DateUtils.msPerHour).

(** Noon in Bogota on 2024-03-15 (day 19797), that is 17:00 UTC. *)
Definition noonBogota : Z := 19797 * 86400000 + 17 * 3600000.

(** The local midnights of 2024-03-09 and of 2024-03-11 in New York:
    05:00 UTC before the clocks go forward, 04:00 UTC after. *)
Definition midnightMarch9 : Z := 1709960400000.
Definition midnightMarch11 : Z := 1710129600000.

(** The tasks [handleChallengeSubmit] keeps, and the challenge it builds. *)
Definition submittedTasks (form : Form) : list Task :=
  List.filter (λ item, nonEmpty (name item)) (taskItems form).

Definition submittedChallenge (form : Form) (now : Z) : Challenge :=
  {| totalDays := input_days form;
     pointThreshold := input_threshold form;
     pointReward := input_points form;
     tasks := submittedTasks form;
     startDate := input_start_date form;
     createdAt := now |}.

(** A thirty-day challenge that starts on 2024-03-10 (day 19792), and a
    form that renames its single task. *)
Definition activeState : AppState :=
  {| localStorage := challengeStarting 19792 30; currentTab := setup;
     currentDayIndex := 5; currentArchiveIndex := None |}.

(** Noon in Paris (UTC+1) on 2024-03-15, that is 11:00 UTC. *)
Definition noonParis : Z := 19797 * 86400000 + 11 * 3600000.

Definition renamingForm : Form :=
  {| input_days := 30; input_threshold := 1; input_points := 1;
     input_start_date := ISODate 19792;
     taskItems := [ {| emoji := "A"; name := "Write"; description := EmptyString |} ] |}.

(** A storage with no key set. *)
Definition emptyStorage : LocalStorage :=
  {| activeChallenge := None; completions := None; archive := None |}.

(** The same form with the start-date field cleared. *)
Definition clearedDateForm : Form :=
  {| input_days := 30; input_threshold := 1; input_points := 1;
     input_start_date := NoDate;
     taskItems := [ {| emoji := "A"; name := "Write"; description := EmptyString |} ] |}.

(** Noon in Paris on 2024-03-05, five days before that challenge starts,
    when editing is offered. *)
Definition noonParisBefore : Z := 19787 * 86400000 + 11 * 3600000.

(** ** Further handlers and views *)

(** The steppers of the form.  [value] is the number shown in the read-only
    input ([parseInt(input.value)]); the result is the number shown after
    the press. *)
Definition adjustDays (delta value : Z) : Z :=
  let newValue := value + delta in
  if (1 <=? newValue) && (newValue <=? 365) then newValue else value.

(** [taskItemCount] is the number of task rows on the form;
    [length || 10] makes it 10 when there is none. *)
Definition adjustThreshold (delta value : Z) (taskItemCount : nat) : Z :=
  let newValue := value + delta in
  let maxTasks := if (taskItemCount =? 0)%nat then 10 else Z.of_nat taskItemCount in
  if (1 <=? newValue) && (newValue <=? maxTasks) then newValue else value.

Definition adjustPoints (delta value : Z) : Z :=
  let newValue := value + delta in
  if (1 <=? newValue) && (newValue <=? 100) then newValue else value.

(** [array[index]] for a JavaScript number: [undefined] ([None]) outside
    the array. *)
Definition arrayAt {A} (array : list A) (index : Z) : option A :=
  if 0 <=? index then array !! Z.to_nat index else None.

(** [viewArchive(index)]; the re-render of the stats tab changes no
    variable. *)
Definition viewArchive (index : Z) (s : AppState) : AppState :=
  withArchiveIndex (Some index) s.

(** The button of the archive detail:
    [currentArchiveIndex = null; renderStatsTab()]. *)
Definition backToStats (s : AppState) : AppState :=
  withArchiveIndex None s.

(** The entry [renderStatsTab] hands to [renderArchiveDetail]: no detail
    ([None]) while [currentArchiveIndex] is [null], otherwise
    [archive[currentArchiveIndex]], which is [undefined] (inner [None])
    when the index is outside the archive. *)
Definition archiveDetailShown (s : AppState) : option (option ArchivedChallenge) :=
  match currentArchiveIndex s with
  | None => None
  | Some index => Some (arrayAt (Store.getArchive (localStorage s)) index)
  end.

(** What [renderSettingsTab] offers under "Challenge Management". *)
Inductive SettingsView := OfferDeletePending | OfferArchive | NoChallengeCreated.

Definition renderSettingsTab (tz : DateUtils.TimeZone) (now : Z) (s : AppState)
    : SettingsView :=
  let challenge := Store.getChallenge (localStorage s) in
  let status := Store.getChallengeStatus tz now (localStorage s) in
  match challenge, status with
  | Some _, Some Store.pending => OfferDeletePending
  | Some _, Some Store.active => OfferArchive
  | _, _ => NoChallengeCreated
  end.

(** The initial render of the [DOMContentLoaded] handler, from the
    variables' initial values.  With a challenge stored it assigns
    [getCurrentDayIndex()] to [currentDayIndex]; when that is [NaN] (the
    stored start date is empty) the variable holds [NaN] from then on, a
    state outside [AppState], whose day index is an integer: the result is
    then [None]. *)
Definition initialState (ls : LocalStorage) : AppState :=
  {| localStorage := ls; currentTab := setup;
     currentDayIndex := 0; currentArchiveIndex := None |}.

Definition initialRender (tz : DateUtils.TimeZone) (now : Z) (s : AppState)
    : option AppState :=
  match Store.getChallenge (localStorage s) with
  | Some _ =>
      (λ index, switchTab tz daily now (withDayIndex index s))
        <$> Store.getCurrentDayIndex tz now (localStorage s)
  | None => Some (switchTab tz setup now s)
  end.

(** What the user can do, and the handler each action runs. *)
Inductive Event :=
| SwitchTab (tabName : Tab)
| NavigateDay (delta : Z)
| ToggleTask (taskIndex : Z)
| Submit (form : Form)
| ConfirmUnlock (ok : bool)
| ConfirmDeletePending (ok : bool)
| ConfirmClearAll (ok1 ok2 : bool)
| ViewArchive (index : Z)
| BackToStats.

Definition handleEvent (tz : DateUtils.TimeZone) (now : Z) (e : Event)
    (s : AppState) : AppState :=
  match e with
  | SwitchTab tabName => switchTab tz tabName now s
  | NavigateDay delta => navigateDay tz delta now s
  | ToggleTask taskIndex => toggleTask tz taskIndex now s
  | Submit form => (handleChallengeSubmit tz form now s).1
  | ConfirmUnlock ok => confirmUnlock tz ok now s
  | ConfirmDeletePending ok => confirmDeletePending tz ok now s
  | ConfirmClearAll ok1 ok2 => confirmClearAll tz ok1 ok2 now s
  | ViewArchive index => viewArchive index s
  | BackToStats => backToStats s
  end.

(** What the page guarantees about an action's argument: the archive list
    passes [viewArchive] the position of an entry it shows, and the day
    stepper of the form keeps the duration at 1 or more. *)
Definition offered (e : Event) (s : AppState) : Prop :=
  match e with
  | ViewArchive index =>
      0 ≤ index < Z.of_nat (length (Store.getArchive (localStorage s)))
  | Submit form => 1 ≤ input_days form
  | _ => True
  end.

(** The states reached from the initial render by offered actions, each
    taken at its own clock reading. *)
Inductive reachable (tz : DateUtils.TimeZone) (ls : LocalStorage)
    : AppState → Prop :=
| reachable_init now s :
    initialRender tz now (initialState ls) = Some s → reachable tz ls s
| reachable_step now e s :
    reachable tz ls s → offered e s → reachable tz ls (handleEvent tz now e s).

(** [Object.keys(completions).length], the "Days Active" figure. *)
Definition daysCompleted (completions : gmap Z (gmap Z bool)) : Z :=
  Z.of_nat (length (ObjectKeys completions)).

(** The points loop of the archive list in [renderStatsTab]. *)
Definition archiveListPoints (archivedChallenge : ArchivedChallenge) : Z :=
  fold_left
    (λ totalPoints i,
       let dayComp := default ∅ (a_completions archivedChallenge !! i) in
       let tasksCompleted := completedCount dayComp in
       if a_pointThreshold archivedChallenge <=? tasksCompleted
       then totalPoints + 1 else totalPoints)
    (seqZ 0 (a_totalDays archivedChallenge)) 0.

(** The per-task loop of [renderArchiveDetail]: the days on which
    [dayComp[taskIndex]] is truthy. *)
Definition taskCompleted (archivedChallenge : ArchivedChallenge)
    (taskIndex : Z) : Z :=
  fold_left
    (λ taskCompleted i,
       let dayComp := default ∅ (a_completions archivedChallenge !! i) in
       if currentState dayComp taskIndex
       then taskCompleted + 1 else taskCompleted)
    (seqZ 0 (a_totalDays archivedChallenge)) 0.

(** [tasks.map((task, taskIndex) => ...)]: the per-task counts, in task
    order. *)
Definition taskCompletedList (archivedChallenge : ArchivedChallenge) : list Z :=
  imap (λ taskIndex _, taskCompleted archivedChallenge (Z.of_nat taskIndex))
    (a_tasks archivedChallenge).

(** The order in which a challenge passes through its statuses. *)
Definition statusRank (status : Store.Status) : Z :=
  match status with
  | Store.pending => 0
  | Store.active => 1
  | Store.completed => 2
  end.

(** The start date [renderChallengeForm] proposes (and sets as the
    earliest allowed) when no challenge is stored:
    [toISODate(getToday())]. *)
Definition defaultStartDate (tz : DateUtils.TimeZone) (now : Z) : Z :=
  DateUtils.toISODate (DateUtils.getToday tz now).

(** The day on screen is a day of the stored challenge. *)
Definition dayIndexInRange (s : AppState) : Prop :=
  ∀ challenge,
    Store.getChallenge (localStorage s) = Some challenge →
    0 ≤ currentDayIndex s < totalDays challenge.

(** The archive entry on screen, if any, is an entry of the archive. *)
Definition archiveIndexValid (s : AppState) : Prop :=
  ∀ index,
    currentArchiveIndex s = Some index →
    0 ≤ index < Z.of_nat (length (Store.getArchive (localStorage s))).

(** Time values up to 2^52 milliseconds from the epoch (some 142000 years
    either way): the difference of two of them is exact in a double. *)
Definition exactTime (t : Z) : Prop := - 2 ^ 52 ≤ t ≤ 2 ^ 52.

(** The sum of a list of integers. *)
Definition sumList (l : list Z) : Z := foldr Z.add 0 l.

(** * Properties *)

(** ** Reading back what the store wrote *)

Section StoreLemmas.
Implicit Types (ls : LocalStorage) (d t : Z) (v : bool).

(** The completions map after [saveCompletion], day by day. *)
Lemma getCompletions_saveCompletion ls d t v d' :
  Store.getCompletions (Store.saveCompletion d t v ls) !! d' =
  if decide (d = d')
  then Some (<[t := v]> (Store.getDayCompletion d ls))
  else Store.getCompletions ls !! d'.
Proof.
  unfold Store.saveCompletion, Store.getDayCompletion. simpl.
  unfold Store.getCompletions at 1. simpl.
  case_decide as Hd.
  - subst d'. rewrite lookup_alter_eq.
    destruct (Store.getCompletions ls !! d) as [day|] eqn:Hday; simpl.
    + by rewrite Hday.
    + by rewrite lookup_insert_eq.
  - rewrite lookup_alter_ne by done.
    destruct (Store.getCompletions ls !! d); [done|].
    by rewrite lookup_insert_ne.
Qed.

Lemma getDayCompletion_saveCompletion_eq ls d t v :
  Store.getDayCompletion d (Store.saveCompletion d t v ls) =
  <[t := v]> (Store.getDayCompletion d ls).
Proof.
  unfold Store.getDayCompletion at 1.
  rewrite getCompletions_saveCompletion. by rewrite decide_True.
Qed.

Lemma getDayCompletion_saveCompletion_ne ls d t v d' :
  d ≠ d' →
  Store.getDayCompletion d' (Store.saveCompletion d t v ls) =
  Store.getDayCompletion d' ls.
Proof.
  intros Hne. unfold Store.getDayCompletion.
  rewrite getCompletions_saveCompletion. by rewrite decide_False.
Qed.

Lemma getChallenge_saveCompletion ls d t v :
  Store.getChallenge (Store.saveCompletion d t v ls) = Store.getChallenge ls.
Proof. reflexivity. Qed.

(** [Store.clearAll] removes the challenge and the completions and does not
    touch the archive key. *)
Lemma clearAll_spec ls :
  Store.getChallenge (Store.clearAll ls) = None ∧
  Store.getCompletions (Store.clearAll ls) = ∅ ∧
  Store.getArchive (Store.clearAll ls) = Store.getArchive ls.
Proof. done. Qed.

(** [localStorage.clear()] leaves nothing to read. *)
Lemma localStorage_clear_spec ls :
  Store.getChallenge (localStorage_clear ls) = None ∧
  Store.getCompletions (localStorage_clear ls) = ∅ ∧
  Store.getArchive (localStorage_clear ls) = [].
Proof. done. Qed.

End StoreLemmas.

(** C1.  Clearing all data, the confirmed "Clear All Data" action, erases
    the three records whatever the state: after it the [activeChallenge],
    [completions] and [archive] keys are absent, so the challenge reads as
    absent and the completions and the archive as empty.  ([Store.clearAll],
    called only to delete a pending challenge, is another operation: it
    keeps the archive, see [clearAll_spec].) *)
Theorem clearAll_erases_all_records (tz : DateUtils.TimeZone) (now : Z)
    (s : AppState) :
  let ls' := localStorage (confirmClearAll tz true true now s) in
  ls' = localStorage_clear (localStorage s) ∧
  activeChallenge ls' = None ∧
  completions ls' = None ∧
  archive ls' = None ∧
  Store.getChallenge ls' = None ∧
  Store.getCompletions ls' = ∅ ∧
  Store.getArchive ls' = [].
Proof.
  intros ls'. subst ls'. unfold confirmClearAll.
  by repeat split.
Qed.

(** On a storage that holds all three records. *)
Example clearAll_erases_sampleStorage :
  localStorage (confirmClearAll (DateUtils.fixedZone 0) true true 0 sampleState)
  = {| activeChallenge := None; completions := None; archive := None |}.
Proof. reflexivity. Qed.

(** ** Archiving *)

(** C3.  With a challenge stored, [archiveChallenge] empties the challenge
    and completions slots and appends one entry to the archive: the entry
    is last, carries the completions map and every field of the challenge
    as they were before the call, and the earlier entries stay where they
    were. *)
Theorem archiveChallenge_clean_cut (now : Z) (ls : LocalStorage)
    (challenge : Challenge) :
  Store.getChallenge ls = Some challenge →
  let ls' := Store.archiveChallenge now ls in
  Store.getChallenge ls' = None ∧
  Store.getCompletions ls' = ∅ ∧
  length (Store.getArchive ls') = S (length (Store.getArchive ls)) ∧
  (∃ entry,
     last (Store.getArchive ls') = Some entry ∧
     a_completions entry = Store.getCompletions ls ∧
     a_tasks entry = tasks challenge ∧
     a_pointThreshold entry = pointThreshold challenge ∧
     a_totalDays entry = totalDays challenge ∧
     a_pointReward entry = pointReward challenge ∧
     a_startDate entry = startDate challenge ∧
     a_createdAt entry = createdAt challenge) ∧
  (∀ (i : nat) old,
     Store.getArchive ls !! i = Some old →
     Store.getArchive ls' !! i = Some old).
Proof.
  intros Hc ls'. subst ls'. unfold Store.archiveChallenge. rewrite Hc.
  cbn [Store.getChallenge Store.getCompletions Store.getArchive
       activeChallenge completions archive default id].
  split; [done|]. split; [done|]. split.
  { rewrite length_app. simpl. lia. }
  split.
  { eexists. split; [apply last_snoc|]. by repeat split. }
  intros i old Hi. by apply lookup_app_l_Some.
Qed.

Lemma archiveChallenge_clean_cut_witness :
  Store.getArchive (Store.archiveChallenge 2000 sampleStorage) !! 0%nat
  = Some sampleArchived.
Proof.
  apply (archiveChallenge_clean_cut 2000 sampleStorage sampleChallenge);
    reflexivity.
Defined.

(** Without a challenge [archiveChallenge] returns at once. *)
Lemma archiveChallenge_no_challenge now ls :
  Store.getChallenge ls = None → Store.archiveChallenge now ls = ls.
Proof. intros H. unfold Store.archiveChallenge. by rewrite H. Qed.

(** ** Completions *)

(** C10.  [saveCompletion d t v] leaves the challenge and the archive as
    they were, makes day [d] present in the completions map, and changes
    no entry other than task [t] of day [d]: every other day keeps its
    record, and for every other pair the value read through
    [getDayCompletion] is the same as before. *)
Theorem saveCompletion_frame (ls : LocalStorage) (d t : Z) (v : bool) :
  let ls' := Store.saveCompletion d t v ls in
  activeChallenge ls' = activeChallenge ls ∧
  archive ls' = archive ls ∧
  is_Some (Store.getCompletions ls' !! d) ∧
  (∀ d', d' ≠ d →
     Store.getCompletions ls' !! d' = Store.getCompletions ls !! d') ∧
  (∀ d' t', (d', t') ≠ (d, t) →
     Store.getDayCompletion d' ls' !! t' = Store.getDayCompletion d' ls !! t').
Proof.
  intros ls'. subst ls'. split; [done|]. split; [done|]. split.
  { rewrite getCompletions_saveCompletion, decide_True by done. eauto. }
  split.
  { intros d' Hd. by rewrite getCompletions_saveCompletion, decide_False. }
  intros d' t' Hne. destruct (decide (d = d')) as [<-|Hd].
  - rewrite getDayCompletion_saveCompletion_eq.
    apply lookup_insert_ne. congruence.
  - by rewrite getDayCompletion_saveCompletion_ne.
Qed.

Lemma saveCompletion_frame_witness :
  Store.getDayCompletion 0 (Store.saveCompletion 1 0 true sampleStorage) !! 0
  = Store.getDayCompletion 0 sampleStorage !! 0.
Proof.
  apply (saveCompletion_frame sampleStorage 1 0 true). intros [=].
Defined.

(** Two presses of the same task on an in-range day. *)
Section Toggle.
Import DateUtils.
Variable tz : TimeZone.

(** With the day on screen within bounds, [renderDailyTab] changes
    nothing. *)
Lemma renderDailyTab_in_range now s :
  (∀ c, Store.getChallenge (localStorage s) = Some c →
        0 ≤ currentDayIndex s < totalDays c) →
  renderDailyTab tz now s = s.
Proof.
  intros Hin. unfold renderDailyTab.
  destruct (Store.getChallenge (localStorage s)) as [c|] eqn:Hc; [|done].
  specialize (Hin c eq_refl).
  assert (Z.max 0 (Z.min (currentDayIndex s) (totalDays c - 1))
          = currentDayIndex s) as -> by lia.
  destruct s; by repeat case_match.
Qed.

Lemma toggleTask_in_range t now s :
  (∀ c, Store.getChallenge (localStorage s) = Some c →
        0 ≤ currentDayIndex s < totalDays c) →
  toggleTask tz t now s =
  match Store.getChallenge (localStorage s) with
  | None => s
  | Some _ =>
      withStorage
        (Store.saveCompletion (currentDayIndex s) t
           (negb (currentState
                    (Store.getDayCompletion (currentDayIndex s) (localStorage s)) t))
           (localStorage s)) s
  end.
Proof.
  intros Hin. unfold toggleTask.
  destruct (Store.getChallenge (localStorage s)) as [c|] eqn:Hc; [|done].
  apply renderDailyTab_in_range. intros c' Hc'.
  change (0 ≤ currentDayIndex s < totalDays c').
  apply Hin. rewrite <- Hc. exact Hc'.
Qed.

End Toggle.

(** C8.  After [saveCompletion d t true] the entry read back for task [t]
    of day [d] is [true].  Pressing a task twice, with the day on screen
    within the challenge's days, leaves the day on screen where it was and
    the completion state of that task ([dayCompletion[t] || false]) as it
    was before the first press. *)
Theorem setCompletion_read_and_double_toggle :
  (∀ ls d t,
     Store.getDayCompletion d (Store.saveCompletion d t true ls) !! t = Some true) ∧
  (∀ tz now1 now2 s t,
     (∀ c, Store.getChallenge (localStorage s) = Some c →
           0 ≤ currentDayIndex s < totalDays c) →
     let s2 := toggleTask tz t now2 (toggleTask tz t now1 s) in
     currentDayIndex s2 = currentDayIndex s ∧
     currentState
       (Store.getDayCompletion (currentDayIndex s) (localStorage s2)) t =
     currentState
       (Store.getDayCompletion (currentDayIndex s) (localStorage s)) t).
Proof.
  split.
  { intros ls d t. rewrite getDayCompletion_saveCompletion_eq.
    apply lookup_insert_eq. }
  intros tz now1 now2 s t Hin s2. subst s2.
  rewrite (toggleTask_in_range tz t now1 s Hin).
  destruct (Store.getChallenge (localStorage s)) as [c|] eqn:Hc.
  - rewrite toggleTask_in_range.
    + cbn [localStorage withStorage currentDayIndex].
      rewrite getChallenge_saveCompletion, Hc.
      cbn [localStorage withStorage currentDayIndex]. split; [done|].
      rewrite !getDayCompletion_saveCompletion_eq.
      unfold currentState. rewrite !lookup_insert_eq. simpl.
      by destruct (default false _).
    + intros c' Hc'. change (0 ≤ currentDayIndex s < totalDays c').
      apply Hin. rewrite <- Hc. exact Hc'.
  - rewrite toggleTask_in_range; [by rewrite Hc|].
    intros c'. by rewrite Hc.
Qed.

Lemma setCompletion_read_and_double_toggle_witness :
  currentState
    (Store.getDayCompletion 0
       (localStorage
          (toggleTask (DateUtils.fixedZone 0) 0 5000
             (toggleTask (DateUtils.fixedZone 0) 0 4000 sampleState)))) 0
  = true.
Proof.
  pose proof (proj2 setCompletion_read_and_double_toggle
                (DateUtils.fixedZone 0) 4000 5000 sampleState 0) as H.
  simpl in H. apply H. intros c [= <-]. simpl. lia.
Defined.

(** ** Counting completed tasks and the daily point *)

Section Counting.

(** The count does not depend on the order in which [Object.values] lists
    the entries. *)
Lemma length_filter_Permutation {A} (f : A → bool) (l1 l2 : list A) :
  l1 ≡ₚ l2 → length (List.filter f l1) = length (List.filter f l2).
Proof.
  induction 1 as [|x l l' _ IH|x y l|l l' l'' _ IH1 _ IH2]; simpl.
  - done.
  - destruct (f x); simpl; congruence.
  - destruct (f x), (f y); simpl; congruence.
  - congruence.
Qed.

Lemma completedCount_empty : completedCount ∅ = 0.
Proof. unfold completedCount, ObjectValues. by rewrite map_to_list_empty. Qed.

Lemma completedCount_insert (dayComp : gmap Z bool) (t : Z) (v : bool) :
  dayComp !! t = None →
  completedCount (<[t := v]> dayComp) =
  (if v then 1 else 0) + completedCount dayComp.
Proof.
  intros Hnone. unfold completedCount, ObjectValues.
  rewrite (length_filter_Permutation Boolean _
             (((t, v) :: map_to_list dayComp).*2)).
  - rewrite fmap_cons. cbn [List.filter snd]. unfold Boolean at 1.
    destruct v; cbn [length]; lia.
  - apply fmap_Permutation. by apply map_to_list_insert.
Qed.

Lemma completedCount_nonneg (dayComp : gmap Z bool) : 0 ≤ completedCount dayComp.
Proof. unfold completedCount. lia. Qed.

(** [completedCount] is the number of task indices whose entry is [true]. *)
Lemma completedCount_size (dayComp : gmap Z bool) :
  completedCount dayComp =
  Z.of_nat (size (filter (λ kv : Z * bool, kv.2 = true) dayComp)).
Proof.
  induction dayComp as [|t v m Hnone IH] using map_ind.
  - by rewrite completedCount_empty, map_filter_empty, map_size_empty.
  - rewrite completedCount_insert, IH by done. destruct v.
    + rewrite map_filter_insert_True by done.
      rewrite map_size_insert_None; [lia|].
      by rewrite map_lookup_filter_None; left.
    + rewrite map_filter_insert_not'; [lia|simpl; congruence|].
      intros y Hy. congruence.
Qed.

(** An object without keys has no completed task. *)
Lemma completedCount_no_keys (dayComp : gmap Z bool) :
  length (ObjectKeys dayComp) = 0%nat → completedCount dayComp = 0.
Proof.
  unfold ObjectKeys. rewrite length_fmap. intros Hlen.
  apply nil_length_inv, map_to_list_empty_iff in Hlen. subst.
  apply completedCount_empty.
Qed.

Lemma ObjectKeys_empty_iff {A} (o : gmap Z A) :
  length (ObjectKeys o) = 0%nat ↔ o = ∅.
Proof.
  unfold ObjectKeys. rewrite length_fmap. split.
  - intros Hlen. by apply nil_length_inv, map_to_list_empty_iff in Hlen.
  - intros ->. by rewrite map_to_list_empty.
Qed.

End Counting.

(** C7.  The point for day [d] is earned exactly when the number of [true]
    values in [getDayCompletion d] is at least [pointThreshold]: a count
    equal to the threshold earns it, a count one below does not.  The count
    is the number of task indices whose stored entry is [true]. *)
Theorem dayPointEarned_threshold (challenge : Challenge) (d : Z)
    (ls : LocalStorage) :
  let count := completedCount (Store.getDayCompletion d ls) in
  count =
    Z.of_nat (size (filter (λ kv : Z * bool, kv.2 = true)
                      (Store.getDayCompletion d ls))) ∧
  (dayPointEarned challenge d ls = true ↔ pointThreshold challenge ≤ count) ∧
  (count = pointThreshold challenge → dayPointEarned challenge d ls = true) ∧
  (count = pointThreshold challenge - 1 → dayPointEarned challenge d ls = false).
Proof.
  intros count. subst count. unfold dayPointEarned, pointEarned.
  split; [apply completedCount_size|].
  split; [apply Z.leb_le|].
  split; intros ->.
  - apply Z.leb_refl.
  - apply Z.leb_gt. lia.
Qed.

Lemma dayPointEarned_threshold_witness :
  dayPointEarned scenarioChallenge 0
    (Store.saveCompletion 0 1 false
       (Store.saveCompletion 0 0 true scenarioStorage)) = false ∧
  dayPointEarned scenarioChallenge 0
    (Store.saveCompletion 0 1 true
       (Store.saveCompletion 0 0 true scenarioStorage)) = true.
Proof.
  split.
  - apply (dayPointEarned_threshold scenarioChallenge 0). vm_compute. reflexivity.
  - apply (dayPointEarned_threshold scenarioChallenge 0). vm_compute. reflexivity.
Defined.

(** ** The two totals *)

Section Totals.

(** A counter that a loop bumps on the days satisfying [p] ends at its
    start value plus the number of such days. *)
Lemma fold_left_counter {S} (step : S → Z → S) (get : S → Z) (p : Z → bool)
    (days : list Z) (init : S) :
  (∀ acc i, get (step acc i) = if p i then get acc + 1 else get acc) →
  get (fold_left step days init) =
  get init + Z.of_nat (length (List.filter p days)).
Proof.
  intros Hstep. revert init.
  induction days as [|i days IH]; intros init; simpl; [lia|].
  rewrite IH, Hstep. destruct (p i); simpl length; lia.
Qed.

Lemma liveTotals_totalPoints challenge completions :
  totalPoints (liveTotals challenge completions) =
  Z.of_nat (length (List.filter (liveCounts challenge completions)
                      (seqZ 0 (totalDays challenge)))).
Proof.
  unfold liveTotals.
  rewrite (fold_left_counter _ totalPoints (liveCounts challenge completions));
    [done|].
  intros acc i. unfold liveStep, liveCounts.
  destruct (0 <? length _)%nat; simpl; [|done].
  by destruct (pointThreshold challenge <=? _).
Qed.

Lemma archiveTotals_totalPoints archivedChallenge :
  ar_totalPoints (archiveTotals archivedChallenge) =
  Z.of_nat (length (List.filter (archiveCounts archivedChallenge)
                      (seqZ 0 (a_totalDays archivedChallenge)))).
Proof.
  unfold archiveTotals.
  rewrite (fold_left_counter _ ar_totalPoints (archiveCounts archivedChallenge));
    [done|].
  intros acc i. unfold archiveStep, archiveCounts. simpl.
  by destruct (a_pointThreshold archivedChallenge <=? _).
Qed.

Lemma elem_of_seqZ_0 (n i : Z) : i ∈ seqZ 0 n ↔ 0 ≤ i < n.
Proof. rewrite elem_of_seqZ. lia. Qed.

Lemma filter_ext_elem_of {A} (f g : A → bool) (l : list A) :
  (∀ x, x ∈ l → f x = g x) → List.filter f l = List.filter g l.
Proof.
  intros H. apply List.filter_ext_in. intros x Hx. apply H.
  by apply list_elem_of_In.
Qed.

(** A day the live loop counts has a record and meets the threshold. *)
Lemma liveCounts_true challenge completions i :
  liveCounts challenge completions i = true →
  is_Some (completions !! i) ∧
  pointThreshold challenge ≤ completedCount (default ∅ (completions !! i)).
Proof.
  unfold liveCounts. intros [Hkeys Hthr]%andb_prop.
  split; [|by apply Z.leb_le].
  destruct (completions !! i); [eauto|].
  simpl in Hkeys. by rewrite (proj2 (ObjectKeys_empty_iff ∅)) in Hkeys.
Qed.

(** The two loops give a day the same answer once its record has a key,
    and also without one when the threshold is positive. *)
Lemma liveCounts_archiveCounts challenge completions now i :
  (1 ≤ pointThreshold challenge ∨
   ∃ dayComp, completions !! i = Some dayComp ∧ dayComp ≠ ∅) →
  liveCounts challenge completions i =
  archiveCounts (Store.archiveEntry challenge completions now) i.
Proof.
  unfold liveCounts, archiveCounts. simpl.
  destruct (0 <? length (ObjectKeys (default ∅ (completions !! i))))%nat
    eqn:Hkeys; [done|].
  apply Nat.ltb_ge in Hkeys.
  assert (length (ObjectKeys (default ∅ (completions !! i))) = 0%nat)
    as Hlen by lia.
  intros [Hthr|(dayComp & Hday & Hne)].
  - rewrite completedCount_no_keys by done. simpl.
    symmetry. apply Z.leb_gt. lia.
  - rewrite Hday in Hlen. simpl in Hlen.
    by apply ObjectKeys_empty_iff in Hlen.
Qed.

End Totals.

(** C4.  For a challenge and its completions map, the live total of
    [renderStatsTab] is the number of days [d] in [0, totalDays) whose
    record has a key and whose count of [true] values reaches
    [pointThreshold]; a counted day always has an entry in the map.  The
    total of [renderArchiveDetail] on the archived copy is the number of
    days in [0, totalDays) whose count, zero for a day without a record,
    reaches the threshold.  The two totals are equal when every day in
    [0, totalDays) has a record, for a threshold of at least 1 (the data
    model's lower bound) or for records that each hold a key (what
    [saveCompletion] writes). *)
Theorem totalPoints_live_and_archived (challenge : Challenge)
    (completions : gmap Z (gmap Z bool)) (now : Z) :
  let archived := Store.archiveEntry challenge completions now in
  let days := seqZ 0 (totalDays challenge) in
  totalPoints (liveTotals challenge completions) =
    Z.of_nat (length (List.filter (liveCounts challenge completions) days)) ∧
  (∀ d, liveCounts challenge completions d = true →
        is_Some (completions !! d) ∧
        pointThreshold challenge ≤
          completedCount (default ∅ (completions !! d))) ∧
  ar_totalPoints (archiveTotals archived) =
    Z.of_nat (length (List.filter
      (λ d, pointThreshold challenge
            <=? completedCount (default ∅ (completions !! d))) days)) ∧
  ((∀ d, 0 ≤ d < totalDays challenge → is_Some (completions !! d)) →
   (1 ≤ pointThreshold challenge ∨
    ∀ d dayComp, completions !! d = Some dayComp → dayComp ≠ ∅) →
   totalPoints (liveTotals challenge completions) =
   ar_totalPoints (archiveTotals archived)).
Proof.
  intros archived days. subst archived days.
  split; [apply liveTotals_totalPoints|].
  split; [apply liveCounts_true|].
  split; [apply archiveTotals_totalPoints|].
  intros Hall Hinv.
  rewrite liveTotals_totalPoints, archiveTotals_totalPoints. simpl.
  f_equal. f_equal. apply filter_ext_elem_of.
  intros d Hd%elem_of_seqZ_0. apply liveCounts_archiveCounts.
  destruct Hinv as [Hthr|Hne]; [by left|right].
  destruct (Hall d Hd) as [dayComp Hday]. eauto.
Qed.

Lemma totalPoints_live_and_archived_witness :
  totalPoints (liveTotals scenarioChallenge fullCompletions) =
  ar_totalPoints
    (archiveTotals (Store.archiveEntry scenarioChallenge fullCompletions 0)).
Proof.
  apply (totalPoints_live_and_archived scenarioChallenge fullCompletions 0).
  - intros d Hd. simpl in Hd.
    assert (d = 0 ∨ d = 1 ∨ d = 2) as [-> | [-> | ->]] by lia;
      vm_compute; eauto.
  - left. simpl. lia.
Defined.

(** The live policy leaves a day without keys out even when the threshold
    is not positive, where the archive policy counts it: the threshold has
    to be positive, or the records non-empty, for the two to agree. *)
Example totals_differ_zero_threshold :
  let challenge :=
    {| totalDays := 1; pointThreshold := 0; pointReward := 1;
       tasks := [sampleTask]; startDate := ISODate 0; createdAt := 0 |} in
  totalPoints (liveTotals challenge ∅) = 0 ∧
  ar_totalPoints (archiveTotals (Store.archiveEntry challenge ∅ 0)) = 1.
Proof. by vm_compute. Qed.

(** With a positive threshold the two totals agree on every completions
    map: a day without a record scores no point under either policy.  What
    the policies then differ in is [possiblePoints], which the live loop
    raises only for days that have a key. *)
Lemma totalPoints_agree_positive_threshold challenge completions now :
  1 ≤ pointThreshold challenge →
  totalPoints (liveTotals challenge completions) =
  ar_totalPoints (archiveTotals (Store.archiveEntry challenge completions now)).
Proof.
  intros Hthr. rewrite liveTotals_totalPoints, archiveTotals_totalPoints.
  simpl. f_equal. f_equal. apply filter_ext_elem_of.
  intros d _. apply liveCounts_archiveCounts. by left.
Qed.

(** ** Dates *)

Section Dates.
Import DateUtils.

Lemma msPerDay_eq : msPerDay = 86400000.
Proof. reflexivity. Qed.

Lemma Day_unique (t d : Z) :
  d * msPerDay ≤ t < (d + 1) * msPerDay → Day t = d.
Proof.
  intros H. unfold Day. symmetry.
  apply (Z.div_unique_pos t msPerDay d (t - d * msPerDay));
    rewrite msPerDay_eq in *; lia.
Qed.

Lemma Day_bounds (t : Z) : Day t * msPerDay ≤ t < (Day t + 1) * msPerDay.
Proof.
  unfold Day. pose proof (Z.div_mod t msPerDay) as Hdm.
  pose proof (Z.mod_pos_bound t msPerDay) as Hb.
  rewrite msPerDay_eq in *. lia.
Qed.

(** In a zone without daylight saving, clearing the hours yields the
    local midnight of the local day. *)
Lemma setHours0_fixedZone off t :
  setHours0 (fixedZone off) t = localDay (fixedZone off) t * msPerDay - off.
Proof. reflexivity. Qed.

Lemma localDay_setHours0_fixedZone off t :
  localDay (fixedZone off) (setHours0 (fixedZone off) t) =
  localDay (fixedZone off) t.
Proof.
  rewrite setHours0_fixedZone. unfold localDay at 1, LocalTime. simpl.
  apply Day_unique. rewrite msPerDay_eq. lia.
Qed.

Lemma addDate_fixedZone off t n :
  addDate (fixedZone off) t n = t + n * msPerDay.
Proof.
  unfold addDate, UTC, LocalTime, Day, TimeWithinDay. simpl.
  pose proof (Z.div_mod (t + off) msPerDay) as Hdm.
  rewrite msPerDay_eq in *. lia.
Qed.

(** East of Greenwich (and at it) the date-only string parses to the
    local midnight of its own day; west of Greenwich, to the local
    midnight of the day before. *)
Lemma parseDate_east off dateString :
  0 ≤ off < msPerDay →
  parseDate (fixedZone off) dateString = dateString * msPerDay - off.
Proof.
  intros Hoff. unfold parseDate. rewrite setHours0_fixedZone. f_equal. f_equal.
  unfold localDay, LocalTime, newDate. simpl. apply Day_unique. lia.
Qed.

Lemma parseDate_west off dateString :
  - msPerDay ≤ off < 0 →
  parseDate (fixedZone off) dateString = (dateString - 1) * msPerDay - off.
Proof.
  intros Hoff. unfold parseDate. rewrite setHours0_fixedZone. f_equal. f_equal.
  unfold localDay, LocalTime, newDate. simpl. apply Day_unique. lia.
Qed.

(** Without daylight saving the difference of two local midnights is a
    whole number of days, and [daysBetween] returns it. *)
Lemma daysBetween_fixedZone off a b :
  daysBetween (setHours0 (fixedZone off) a) (setHours0 (fixedZone off) b) =
  localDay (fixedZone off) b - localDay (fixedZone off) a.
Proof.
  rewrite !setHours0_fixedZone. unfold daysBetween.
  replace (_ - _) with
    ((localDay (fixedZone off) b - localDay (fixedZone off) a) * msPerDay)
    by lia.
  apply Z.div_mul. by rewrite msPerDay_eq.
Qed.

(** With a date-only string stored, the status is the three-way
    comparison of valid dates. *)
Lemma getChallengeStatus_valid tz now ls challenge day :
  Store.getChallenge ls = Some challenge →
  startDate challenge = ISODate day →
  Store.getChallengeStatus tz now ls =
  Some (if getToday tz now <? parseDate tz day then Store.pending
        else if addDate tz (parseDate tz day) (totalDays challenge)
                <=? getToday tz now
             then Store.completed else Store.active).
Proof.
  intros Hc Hday. unfold Store.getChallengeStatus. rewrite Hc, Hday.
  change (parseDateString tz (ISODate day)) with (Some (parseDate tz day)).
  cbn [fmap option_fmap option_map lessThan atLeast].
  destruct (_ <? _); [done|]. by destruct (_ <=? _).
Qed.

(** With the empty string stored, both comparisons are made with [NaN] and
    fail: the status is active at every clock. *)
Lemma getChallengeStatus_no_date tz now ls challenge :
  Store.getChallenge ls = Some challenge →
  startDate challenge = NoDate →
  Store.getChallengeStatus tz now ls = Some Store.active.
Proof.
  intros Hc Hday. unfold Store.getChallengeStatus. by rewrite Hc, Hday.
Qed.

(** The status as the code derives it, for any zone: a comparison of
    today's midnight with the parsed start and with the end date. *)
Lemma getChallengeStatus_cases tz now ls challenge day :
  Store.getChallenge ls = Some challenge →
  startDate challenge = ISODate day →
  let today := getToday tz now in
  let start := parseDate tz day in
  let endDate := addDate tz start (totalDays challenge) in
  (Store.getChallengeStatus tz now ls = Some Store.pending ↔ today < start) ∧
  (Store.getChallengeStatus tz now ls = Some Store.completed ↔
     start ≤ today ∧ endDate ≤ today) ∧
  (Store.getChallengeStatus tz now ls = Some Store.active ↔
     start ≤ today < endDate).
Proof.
  intros Hc Hday today start endDate.
  rewrite (getChallengeStatus_valid tz now ls challenge day Hc Hday).
  fold today start endDate.
  destruct (Z.ltb_spec today start), (Z.leb_spec endDate today);
    repeat split; intros; try done; try lia.
Qed.

(** At or east of Greenwich, without daylight saving, the status follows
    the calendar: pending before the start day, completed from
    [totalDays] days after it, active in between. *)
Lemma getChallengeStatus_east off now ls challenge day :
  0 ≤ off < msPerDay →
  Store.getChallenge ls = Some challenge →
  startDate challenge = ISODate day →
  let today := localDay (fixedZone off) now in
  Store.getChallengeStatus (fixedZone off) now ls =
  Some (if today <? day then Store.pending
        else if day + totalDays challenge <=? today
             then Store.completed else Store.active).
Proof.
  intros Hoff Hc Hday today.
  rewrite (getChallengeStatus_valid _ now ls challenge day Hc Hday).
  rewrite addDate_fixedZone, parseDate_east by done.
  unfold getToday. rewrite setHours0_fixedZone. fold today.
  rewrite msPerDay_eq in *.
  destruct (Z.ltb_spec today day),
           (Z.leb_spec (day + totalDays challenge) today);
    repeat case_match; try done;
    repeat match goal with
           | H : (_ <? _) = _ |- _ => first [apply Z.ltb_lt in H | apply Z.ltb_ge in H]
           | H : (_ <=? _) = _ |- _ => first [apply Z.leb_le in H | apply Z.leb_gt in H]
           end; lia.
Qed.

(** West of Greenwich every comparison is made against the day before
    the stored start date. *)
Lemma getChallengeStatus_west off now ls challenge day :
  - msPerDay ≤ off < 0 →
  Store.getChallenge ls = Some challenge →
  startDate challenge = ISODate day →
  let today := localDay (fixedZone off) now in
  Store.getChallengeStatus (fixedZone off) now ls =
  Some (if today <? day - 1 then Store.pending
        else if day - 1 + totalDays challenge <=? today
             then Store.completed else Store.active).
Proof.
  intros Hoff Hc Hday today.
  rewrite (getChallengeStatus_valid _ now ls challenge day Hc Hday).
  rewrite addDate_fixedZone, parseDate_west by done.
  unfold getToday. rewrite setHours0_fixedZone. fold today.
  rewrite msPerDay_eq in *.
  destruct (Z.ltb_spec today (day - 1)),
           (Z.leb_spec (day - 1 + totalDays challenge) today);
    repeat case_match; try done;
    repeat match goal with
           | H : (_ <? _) = _ |- _ => first [apply Z.ltb_lt in H | apply Z.ltb_ge in H]
           | H : (_ <=? _) = _ |- _ => first [apply Z.leb_le in H | apply Z.leb_gt in H]
           end; lia.
Qed.

End Dates.

(** [daysBetween] is the floor of the quotient of the difference by one
    day's milliseconds. *)
Lemma daysBetween_floor (a b : Z) :
  DateUtils.daysBetween a b = (b - a) / 86400000 ∧
  DateUtils.daysBetween a b * 86400000 ≤ b - a
    < (DateUtils.daysBetween a b + 1) * 86400000.
Proof.
  split; [reflexivity|]. unfold DateUtils.daysBetween.
  pose proof (Day_bounds (b - a)) as H. unfold DateUtils.Day in H.
  by rewrite msPerDay_eq in H.
Qed.

(** Without a challenge [getCurrentDayIndex] is 0.  With one whose start
    date is a date-only string it is the number of days from the parsed
    start date to today's midnight, brought into the range from 0 to
    [totalDays - 1]: 0 when that number is negative, [totalDays - 1] when
    it is larger, the number itself otherwise; for [totalDays] of at least
    1 the result lies in [0, totalDays - 1] whatever the clock shows. *)
Lemma getCurrentDayIndex_clamped (tz : DateUtils.TimeZone) (now : Z)
    (ls : LocalStorage) :
  (Store.getChallenge ls = None → Store.getCurrentDayIndex tz now ls = Some 0) ∧
  (∀ challenge day,
     Store.getChallenge ls = Some challenge →
     startDate challenge = ISODate day →
     1 ≤ totalDays challenge →
     let daysPassed :=
       DateUtils.daysBetween (DateUtils.parseDate tz day)
                             (DateUtils.getToday tz now) in
     ∃ index,
       Store.getCurrentDayIndex tz now ls = Some index ∧
       0 ≤ index ≤ totalDays challenge - 1 ∧
       (daysPassed < 0 → index = 0) ∧
       (0 ≤ daysPassed ≤ totalDays challenge - 1 → index = daysPassed) ∧
       (totalDays challenge - 1 < daysPassed → index = totalDays challenge - 1)).
Proof.
  split.
  - unfold Store.getCurrentDayIndex. by intros ->.
  - intros challenge day Hc Hday Hdays daysPassed.
    unfold Store.getCurrentDayIndex. rewrite Hc, Hday.
    eexists. split; [reflexivity|]. subst daysPassed.
    change (DateUtils.setHours0 tz (DateUtils.newDate day))
      with (DateUtils.parseDate tz day).
    lia.
Qed.

(** In Paris (UTC+1) at noon of 2024-01-20, forty days into a thirty-day
    challenge that started on 2023-12-11, the index is the last day. *)
Example getCurrentDayIndex_last_day :
  Store.getCurrentDayIndex (DateUtils.fixedZone 3600000) 1705748400000
    (challengeStarting 19702 30) = Some 29.
Proof. reflexivity. Qed.

(** C6 (defect in the code).  The start-date field is not required and
    [handleChallengeSubmit] stores its value unchecked: on a fresh page a
    submission with the field cleared shows no alert and stores the empty
    string.  For
    that stored challenge, which has thirty days, [parseDate] yields an
    Invalid Date and [getCurrentDayIndex] is [NaN] at every clock and in
    every zone, not a number of [0, totalDays - 1]; the clamp does not
    catch it, and the initial render puts it in [currentDayIndex].  With a
    date-only string stored the index is clamped as the claim says
    ([getCurrentDayIndex_clamped]). *)
Theorem getCurrentDayIndex_empty_start_date (tz : DateUtils.TimeZone)
    (now : Z) :
  let result :=
    handleChallengeSubmit tz clearedDateForm noonParis
      {| localStorage := emptyStorage; currentTab := setup;
         currentDayIndex := 0; currentArchiveIndex := None |} in
  let ls := localStorage result.1 in
  result.2 = None ∧
  Store.getChallenge ls = Some (submittedChallenge clearedDateForm noonParis) ∧
  totalDays (submittedChallenge clearedDateForm noonParis) = 30 ∧
  startDate (submittedChallenge clearedDateForm noonParis) = NoDate ∧
  Store.getCurrentDayIndex tz now ls = None ∧
  Store.getDaysUntilStart tz now ls = None ∧
  Store.getChallengeStatus tz now ls = Some Store.active ∧
  initialRender tz now (initialState ls) = None.
Proof.
  intros result ls. subst ls result. by repeat split.
Qed.

(** C5 (defect in the code).  The comparisons that derive the status are
    those of the claim ([getChallengeStatus_cases]), but they are made
    against [parseDate(startDate)], and a date-only string is read as UTC
    midnight before its hours are cleared in local time: west of Greenwich
    that is the midnight of the day before the stored start date.  In
    Bogota on 2024-03-15 a thirty-day challenge stored to start on
    2024-03-16 is reported active, not pending, and a one-day challenge
    stored to start on 2024-03-15 is reported completed, not active. *)
Theorem getChallengeStatus_west_of_Greenwich :
  DateUtils.localDay bogota noonBogota = 19797 ∧
  DateUtils.parseDate bogota 19798 = DateUtils.getToday bogota noonBogota ∧
  Store.getChallengeStatus bogota noonBogota (challengeStarting 19798 30)
    = Some Store.active ∧
  Store.getChallengeStatus bogota noonBogota (challengeStarting 19797 1)
    = Some Store.completed.
Proof. by vm_compute. Qed.

(** Where the local offset is not negative the same two queries give the
    answers of the claim, for every start day and every positive length. *)
Lemma getChallengeStatus_same_day_and_tomorrow_east off now start days :
  0 ≤ off < DateUtils.msPerDay →
  1 ≤ days →
  DateUtils.localDay (DateUtils.fixedZone off) now = start →
  Store.getChallengeStatus (DateUtils.fixedZone off) now
    (challengeStarting start days) = Some Store.active ∧
  Store.getChallengeStatus (DateUtils.fixedZone off) now
    (challengeStarting (start + 1) days) = Some Store.pending.
Proof.
  intros Hoff Hdays Htoday. split.
  - rewrite (getChallengeStatus_east off now (challengeStarting start days)
               _ start Hoff eq_refl eq_refl).
    rewrite Htoday. simpl.
    rewrite (proj2 (Z.ltb_ge start start)) by lia.
    by rewrite (proj2 (Z.leb_gt (start + days) start)) by lia.
  - rewrite (getChallengeStatus_east off now (challengeStarting (start + 1) days)
               _ (start + 1) Hoff eq_refl eq_refl).
    rewrite Htoday. simpl.
    by rewrite (proj2 (Z.ltb_lt start (start + 1))) by lia.
Qed.

(** C9 (defect in the code).  [daysBetween] is the floor of the difference
    over 86400000 ms ([daysBetween_floor]) and its callers pass local
    midnights, but the floor is not exact across a daylight-saving
    transition.  In New York, at noon of 2024-03-11, [getToday] is the
    local midnight of that day and [parseDate] of the start string
    2024-03-10 is the local midnight of 2024-03-09: two calendar days but
    only 47 hours apart, for which [daysBetween] returns 1. *)
Theorem daysBetween_spring_forward :
  let tz := DateUtils.newYork2024 in
  DateUtils.getToday tz (midnightMarch11 + 12 * 3600000) = midnightMarch11 ∧
  DateUtils.parseDate tz 19792 = midnightMarch9 ∧
  DateUtils.setHours0 tz midnightMarch9 = midnightMarch9 ∧
  DateUtils.setHours0 tz midnightMarch11 = midnightMarch11 ∧
  DateUtils.localDay tz midnightMarch11 - DateUtils.localDay tz midnightMarch9
    = 2 ∧
  midnightMarch11 - midnightMarch9 = 47 * DateUtils.msPerHour ∧
  DateUtils.daysBetween midnightMarch9 midnightMarch11 = 1.
Proof. by vm_compute. Qed.

(** Without daylight saving the count is exact: between the local
    midnights of any two instants [daysBetween] returns the difference of
    their calendar days. *)
Lemma daysBetween_exact_without_dst off a b n :
  DateUtils.localDay (DateUtils.fixedZone off) b
    = DateUtils.localDay (DateUtils.fixedZone off) a + n →
  DateUtils.daysBetween (DateUtils.getToday (DateUtils.fixedZone off) a)
                        (DateUtils.getToday (DateUtils.fixedZone off) b) = n.
Proof.
  intros Hn. unfold DateUtils.getToday. rewrite daysBetween_fixedZone. lia.
Qed.

(** ** Editing the challenge *)

Section Editing.
Import DateUtils.
Variable tz : TimeZone.

Lemma localStorage_renderDailyTab now s :
  localStorage (renderDailyTab tz now s) = localStorage s.
Proof. unfold renderDailyTab. by repeat case_match. Qed.

Lemma localStorage_switchTab tabName now s :
  localStorage (switchTab tz tabName now s) = localStorage s.
Proof.
  unfold switchTab, renderCurrentTab.
  destruct tabName; simpl; try done. by rewrite localStorage_renderDailyTab.
Qed.

(** The two ways a submission ends: an alert and the state as it was, or
    the built challenge saved over whatever was stored. *)
Lemma handleChallengeSubmit_outcomes form now s :
  (∃ alert, handleChallengeSubmit tz form now s = (s, Some alert) ∧
            (submittedTasks form = [] ∨
             Z.of_nat (length (submittedTasks form)) < input_threshold form)) ∨
  ((handleChallengeSubmit tz form now s).2 = None ∧
   Store.getChallenge (localStorage (handleChallengeSubmit tz form now s).1)
     = Some (submittedChallenge form now) ∧
   submittedTasks form ≠ [] ∧
   input_threshold form ≤ Z.of_nat (length (submittedTasks form))).
Proof.
  unfold handleChallengeSubmit. cbv zeta.
  fold (submittedTasks form). fold (submittedChallenge form now).
  destruct (Nat.eqb_spec (length (submittedTasks form)) 0) as [Hlen|Hlen].
  { left. eexists. split; [done|]. left. by apply nil_length_inv. }
  destruct (Z.ltb_spec (Z.of_nat (length (submittedTasks form)))
              (input_threshold form)) as [Hthr|Hthr].
  { left. eexists. split; [done|]. by right. }
  right. simpl. rewrite localStorage_switchTab. simpl.
  repeat split; [|done]. intros Hnil. by rewrite Hnil in Hlen.
Qed.

(** When the setup tab shows the summary instead of a form. *)
Lemma renderSetupTab_locked now s challenge :
  renderSetupTab tz now s = LockedSummary challenge ↔
  Store.getChallenge (localStorage s) = Some challenge ∧
  Store.getChallengeStatus tz now (localStorage s) = Some Store.active.
Proof.
  unfold renderSetupTab.
  destruct (Store.getChallenge (localStorage s)) as [c|] eqn:Hc;
    destruct (Store.getChallengeStatus tz now (localStorage s)) as [[]|];
    split; try done; try (by intros [? ?]); try (by intros [= ->]).
  by intros [[= ->] _].
Qed.

End Editing.

(** C2 (defect in the code).  [saveChallenge] is documented as "can edit if
    pending, locked if active" and the setup tab hides the form while the
    challenge is active, but neither [handleChallengeSubmit] nor
    [saveChallenge] reads the status: with the stored challenge active, a
    valid submission raises nothing and replaces the stored challenge. *)
Lemma handleChallengeSubmit_overwrites_active :
  let tz := DateUtils.fixedZone 3600000 in
  let result := handleChallengeSubmit tz renamingForm noonParis activeState in
  Store.getChallengeStatus tz noonParis (localStorage activeState)
    = Some Store.active ∧
  result.2 = None ∧
  Store.getChallenge (localStorage result.1)
    = Some (submittedChallenge renamingForm noonParis) ∧
  Store.getChallenge (localStorage result.1)
    ≠ Store.getChallenge (localStorage activeState).
Proof. by vm_compute. Qed.

(** What the code has of the lock.  The setup tab shows the read-only
    summary, and no form, exactly when a challenge is stored and its status
    is active, and the editing form exactly when the status is pending.
    While pending, a submission that passes validation stores exactly the
    submitted challenge; a submission that fails validation leaves the
    stored challenge unchanged in every status. *)
Theorem editChallenge_gate (tz : DateUtils.TimeZone) (now : Z) (s : AppState)
    (form : Form) :
  let result := handleChallengeSubmit tz form now s in
  let valid :=
    submittedTasks form ≠ [] ∧
    input_threshold form ≤ Z.of_nat (length (submittedTasks form)) in
  (∀ challenge,
     renderSetupTab tz now s = LockedSummary challenge ↔
     Store.getChallenge (localStorage s) = Some challenge ∧
     Store.getChallengeStatus tz now (localStorage s) = Some Store.active) ∧
  (∀ challenge,
     renderSetupTab tz now s = ChallengeForm (Some challenge) true ↔
     Store.getChallenge (localStorage s) = Some challenge ∧
     Store.getChallengeStatus tz now (localStorage s) = Some Store.pending) ∧
  (¬ valid → ∃ alert, result = (s, Some alert)) ∧
  (Store.getChallengeStatus tz now (localStorage s) = Some Store.pending →
   valid →
   result.2 = None ∧
   Store.getChallenge (localStorage result.1)
     = Some (submittedChallenge form now)).
Proof.
  intros result valid. subst result valid.
  split; [intros c; apply renderSetupTab_locked|].
  split.
  { intros c. unfold renderSetupTab.
    destruct (Store.getChallenge (localStorage s)) as [c'|] eqn:Hc;
      destruct (Store.getChallengeStatus tz now (localStorage s)) as [[]|];
      split; try done; try (by intros [? ?]); try (by intros [= ->]).
    by intros [[= ->] _]. }
  destruct (handleChallengeSubmit_outcomes tz form now s)
    as [(alert & Heq & Hbad)|(Hnone & Hsaved & Hne & Hthr)].
  - split; [eauto|]. intros _ [Hne Hthr]. destruct Hbad; [done|lia].
  - split; [|done]. intros Hnot. destruct Hnot. done.
Qed.

Lemma editChallenge_gate_witness :
  Store.getChallenge
    (localStorage
       (handleChallengeSubmit (DateUtils.fixedZone 3600000) renamingForm
          noonParisBefore activeState).1)
  = Some (submittedChallenge renamingForm noonParisBefore).
Proof.
  pose proof (editChallenge_gate (DateUtils.fixedZone 3600000)
                noonParisBefore activeState renamingForm) as H.
  simpl in H. destruct H as (_ & _ & _ & H).
  apply H.
  - reflexivity.
  - split; [discriminate|]. vm_compute. discriminate.
Defined.

(** * Further properties of the store *)

Section StoreComposition.
Implicit Types (ls : LocalStorage) (d t : Z) (v : bool).

(** The map written by [saveCompletion], as one insertion. *)
Lemma getCompletions_saveCompletion_insert ls d t v :
  Store.getCompletions (Store.saveCompletion d t v ls) =
  <[d := <[t := v]> (Store.getDayCompletion d ls)]> (Store.getCompletions ls).
Proof.
  apply map_eq. intros d'. rewrite getCompletions_saveCompletion, lookup_insert.
  by destruct (decide (d = d')).
Qed.

(** Two storages written by [saveCompletion] are equal once they agree on
    the challenge, on the archive and on every day of the completions. *)
Lemma saveCompletion_ext ls1 d1 t1 v1 ls2 d2 t2 v2 :
  activeChallenge ls1 = activeChallenge ls2 →
  archive ls1 = archive ls2 →
  (∀ d, Store.getCompletions (Store.saveCompletion d1 t1 v1 ls1) !! d =
        Store.getCompletions (Store.saveCompletion d2 t2 v2 ls2) !! d) →
  Store.saveCompletion d1 t1 v1 ls1 = Store.saveCompletion d2 t2 v2 ls2.
Proof.
  intros Hc Ha Hm. apply map_eq in Hm.
  transitivity
    {| activeChallenge := activeChallenge ls1;
       completions :=
         Some (Store.getCompletions (Store.saveCompletion d1 t1 v1 ls1));
       archive := archive ls1 |}; [done|].
  by rewrite Hc, Ha, Hm.
Qed.

(** [archiveChallenge] only ever extends the archive. *)
Lemma archiveChallenge_prefix now ls :
  Store.getArchive ls `prefix_of` Store.getArchive (Store.archiveChallenge now ls).
Proof.
  unfold Store.archiveChallenge.
  destruct (Store.getChallenge ls); [|done].
  by apply prefix_app_r.
Qed.

End StoreComposition.

(** X1.  Writing the same entry twice keeps the last value, and writes to two
    different entries can be made in either order. *)
Theorem saveCompletion_last_write_and_commute (ls : LocalStorage) :
  (∀ d t v1 v2,
     Store.saveCompletion d t v2 (Store.saveCompletion d t v1 ls) =
     Store.saveCompletion d t v2 ls) ∧
  (∀ d1 t1 v1 d2 t2 v2,
     (d1, t1) ≠ (d2, t2) →
     Store.saveCompletion d1 t1 v1 (Store.saveCompletion d2 t2 v2 ls) =
     Store.saveCompletion d2 t2 v2 (Store.saveCompletion d1 t1 v1 ls)).
Proof.
  split.
  - intros d t v1 v2. apply saveCompletion_ext; [done..|]. intros d'.
    rewrite !getCompletions_saveCompletion.
    destruct (decide (d = d')) as [<-|]; [|done].
    rewrite getDayCompletion_saveCompletion_eq. by rewrite insert_insert_eq.
  - intros d1 t1 v1 d2 t2 v2 Hne. apply saveCompletion_ext; [done..|].
    intros d'. rewrite !getCompletions_saveCompletion.
    destruct (decide (d1 = d')) as [H1|H1], (decide (d2 = d')) as [H2|H2].
    + subst d1 d2. rewrite !getDayCompletion_saveCompletion_eq.
      f_equal. apply insert_insert_ne. congruence.
    + by rewrite getDayCompletion_saveCompletion_ne by congruence.
    + by rewrite getDayCompletion_saveCompletion_ne by congruence.
    + done.
Qed.

Lemma saveCompletion_last_write_and_commute_witness :
  Store.saveCompletion 0 1 true (Store.saveCompletion 2 0 false sampleStorage) =
  Store.saveCompletion 2 0 false (Store.saveCompletion 0 1 true sampleStorage).
Proof.
  apply (saveCompletion_last_write_and_commute sampleStorage). intros [=].
Defined.

(** X2.  The number of recorded days ("Days Active") after [saveCompletion]:
    one more when day [d] had no record, unchanged when it had one, whatever
    value is written. *)
Theorem saveCompletion_daysCompleted (ls : LocalStorage) (d t : Z) (v : bool) :
  daysCompleted (Store.getCompletions (Store.saveCompletion d t v ls)) =
  match Store.getCompletions ls !! d with
  | None => daysCompleted (Store.getCompletions ls) + 1
  | Some _ => daysCompleted (Store.getCompletions ls)
  end.
Proof.
  unfold daysCompleted, ObjectKeys.
  rewrite !length_fmap, !length_map_to_list.
  rewrite getCompletions_saveCompletion_insert.
  destruct (Store.getCompletions ls !! d) as [day|] eqn:Hd.
  - by rewrite map_size_insert_Some by eauto.
  - rewrite map_size_insert_None by done. lia.
Qed.

(** X3.  Every operation of the store keeps the archive it found as a prefix of
    the archive it leaves: entries are only ever appended, and only by
    [archiveChallenge]. *)
Theorem store_archive_append_only (ls : LocalStorage) :
  (∀ challenge,
     Store.getArchive (Store.saveChallenge challenge ls) = Store.getArchive ls) ∧
  (∀ d t v,
     Store.getArchive (Store.saveCompletion d t v ls) = Store.getArchive ls) ∧
  Store.getArchive (Store.clearAll ls) = Store.getArchive ls ∧
  (∀ now, Store.getArchive ls `prefix_of`
          Store.getArchive (Store.archiveChallenge now ls)).
Proof.
  repeat split. intros now. apply archiveChallenge_prefix.
Qed.

(** X4.  Archiving twice is archiving once: the first call empties the challenge
    slot, so the second returns at once and no entry is duplicated. *)
Theorem archiveChallenge_twice (now1 now2 : Z) (ls : LocalStorage) :
  Store.archiveChallenge now2 (Store.archiveChallenge now1 ls) =
  Store.archiveChallenge now1 ls.
Proof.
  apply archiveChallenge_no_challenge. unfold Store.archiveChallenge.
  by destruct (Store.getChallenge ls) as [c|] eqn:Hc.
Qed.

(** * Further properties of the counts *)

Section MoreCounting.

(** Writing an entry: the count is that of the other entries, plus one
    when the value written is [true]. *)
Lemma completedCount_insert_delete (dayComp : gmap Z bool) (t : Z) (v : bool) :
  completedCount (<[t := v]> dayComp) =
  (if v then 1 else 0) + completedCount (delete t dayComp).
Proof.
  rewrite <- insert_delete_eq. apply completedCount_insert, lookup_delete_eq.
Qed.

Lemma completedCount_delete (dayComp : gmap Z bool) (t : Z) :
  completedCount dayComp =
  (if currentState dayComp t then 1 else 0) + completedCount (delete t dayComp).
Proof.
  unfold currentState. destruct (dayComp !! t) as [v|] eqn:Ht; simpl.
  - rewrite <- (insert_delete_id dayComp t v Ht) at 1.
    apply completedCount_insert, lookup_delete_eq.
  - by rewrite delete_id.
Qed.

(** The completed tasks of a day are among its keys. *)
Lemma completedCount_le_keys (dayComp : gmap Z bool) :
  completedCount dayComp ≤ Z.of_nat (length (ObjectKeys dayComp)).
Proof.
  unfold completedCount, ObjectKeys, ObjectValues.
  rewrite (length_fmap fst), <- (length_fmap snd).
  apply inj_le, List.filter_length_le.
Qed.

Lemma List_filter_sublist {A} (f : A → bool) (l : list A) :
  List.filter f l `sublist_of` l.
Proof.
  induction l as [|x l IH]; simpl; [constructor|].
  destruct (f x); by constructor.
Qed.

(** Distinct integers of [0, n) that are all keys of a map are no more
    than its keys. *)
Lemma length_filter_keys {A} (p : Z → bool) (o : gmap Z A) (n : Z) :
  (∀ i, p i = true → is_Some (o !! i)) →
  (length (List.filter p (seqZ 0 n)) ≤ length (ObjectKeys o))%nat.
Proof.
  intros Hp. apply submseteq_length, NoDup_submseteq.
  - eapply sublist_NoDup; [apply NoDup_seqZ|apply List_filter_sublist].
  - intros i Hi. apply list_elem_of_In, List.filter_In in Hi as [_ Hi].
    destruct (Hp i Hi) as [x Hx]. unfold ObjectKeys.
    apply list_elem_of_fmap. exists (i, x). split; [done|].
    by apply elem_of_map_to_list.
Qed.

(** The keys of a map whose keys all lie in [0, n) are at most [n]. *)
Lemma length_keys_in_range {A} (o : gmap Z A) (n : nat) :
  (∀ t, is_Some (o !! t) → 0 ≤ t < Z.of_nat n) →
  (length (ObjectKeys o) ≤ n)%nat.
Proof.
  intros Hrange. rewrite <- (Nat2Z.id n).
  rewrite <- (length_seqZ 0 (Z.of_nat n)).
  apply submseteq_length, NoDup_submseteq.
  - apply NoDup_fst_map_to_list.
  - intros t Ht. unfold ObjectKeys in Ht.
    apply list_elem_of_fmap in Ht as [[t' x] [-> Hin]].
    apply elem_of_map_to_list in Hin. simpl.
    apply elem_of_seqZ. specialize (Hrange t' (ex_intro _ x Hin)). lia.
Qed.

(** A property of the counters that holds at the start of a loop and is
    kept by every pass holds at its end. *)
Lemma fold_left_invariant {S B} (step : S → B → S) (P : S → Prop)
    (l : list B) (init : S) :
  P init → (∀ acc i, i ∈ l → P acc → P (step acc i)) →
  P (fold_left step l init).
Proof.
  revert init. induction l as [|i l IH]; intros init Hinit Hstep; [done|].
  simpl. apply IH.
  - apply Hstep; [left|done].
  - intros acc j Hj. apply Hstep. by right.
Qed.

End MoreCounting.

(** X5.  Each press of a task changes the day's count of completed tasks by
    exactly one: up when the entry read as not completed (absent or
    [false]), down when it read as completed; and the entry then reads as
    the opposite. *)
Theorem toggleTask_count (tz : DateUtils.TimeZone) (now : Z) (s : AppState)
    (t : Z) (challenge : Challenge) :
  Store.getChallenge (localStorage s) = Some challenge →
  0 ≤ currentDayIndex s < totalDays challenge →
  let d := currentDayIndex s in
  let before := Store.getDayCompletion d (localStorage s) in
  let after := Store.getDayCompletion d (localStorage (toggleTask tz t now s)) in
  currentState after t = negb (currentState before t) ∧
  completedCount after =
  completedCount before + (if currentState before t then -1 else 1).
Proof.
  intros Hc Hd d before after. subst d before after.
  rewrite toggleTask_in_range by (intros c; rewrite Hc; by intros [= <-]).
  rewrite Hc. cbn [localStorage withStorage].
  rewrite getDayCompletion_saveCompletion_eq. split.
  - unfold currentState at 1. by rewrite lookup_insert_eq.
  - rewrite completedCount_insert_delete.
    rewrite (completedCount_delete
               (Store.getDayCompletion (currentDayIndex s) (localStorage s)) t).
    destruct (currentState _ t); simpl; lia.
Qed.

Lemma toggleTask_count_witness :
  completedCount
    (Store.getDayCompletion 0
       (localStorage (toggleTask (DateUtils.fixedZone 0) 0 4000 sampleState)))
  = 0.
Proof.
  pose proof (toggleTask_count (DateUtils.fixedZone 0) 4000 sampleState 0
                sampleChallenge eq_refl) as H.
  cbv zeta in H. destruct H as [_ H]; [simpl; lia|].
  etransitivity; [exact H|]. vm_compute. reflexivity.
Defined.

(** X6.  The figures of the active-challenge card: a point is counted at most
    once per day that has a record with a key, such days are among the
    recorded days ("Days Active") and among the challenge's days. *)
Theorem liveTotals_bounds (challenge : Challenge)
    (completions : gmap Z (gmap Z bool)) :
  let totals := liveTotals challenge completions in
  0 ≤ totalPoints totals ≤ possiblePoints totals ∧
  possiblePoints totals ≤ daysCompleted completions ∧
  possiblePoints totals ≤ Z.max 0 (totalDays challenge).
Proof.
  intros totals. subst totals.
  set (hasKey := λ i : Z,
         (0 <? length (ObjectKeys (default ∅ (completions !! i))))%nat).
  assert (possiblePoints (liveTotals challenge completions) =
          Z.of_nat (length (List.filter hasKey (seqZ 0 (totalDays challenge)))))
    as Hposs.
  { unfold liveTotals.
    rewrite (fold_left_counter _ possiblePoints hasKey); [done|].
    intros acc i. unfold liveStep. fold (hasKey i). by destruct (hasKey i). }
  split; [|split].
  - unfold liveTotals. apply fold_left_invariant; [simpl; lia|].
    intros acc i _ Hacc. unfold liveStep.
    destruct (0 <? _)%nat; [|done]. simpl.
    destruct (pointThreshold challenge <=? _); lia.
  - rewrite Hposs. unfold daysCompleted. apply inj_le, length_filter_keys.
    intros i Hi. unfold hasKey in Hi.
    destruct (completions !! i); [eauto|].
    simpl in Hi. by rewrite (proj2 (ObjectKeys_empty_iff ∅)) in Hi.
  - rewrite Hposs.
    pose proof (sublist_length _ _
                  (List_filter_sublist hasKey (seqZ 0 (totalDays challenge)))) as Hlen.
    rewrite length_seqZ in Hlen. lia.
Qed.

(** X7.  The archive list and the archive detail compute the points of an
    archived challenge with two separate loops; they give the same number. *)
Theorem archiveListPoints_detail (archivedChallenge : ArchivedChallenge) :
  archiveListPoints archivedChallenge =
  ar_totalPoints (archiveTotals archivedChallenge).
Proof.
  rewrite archiveTotals_totalPoints. unfold archiveListPoints.
  refine (fold_left_counter _ (λ x : Z, x) (archiveCounts archivedChallenge)
            _ 0 _).
  intros acc i. unfold archiveCounts. simpl.
  by destruct (a_pointThreshold archivedChallenge <=? _).
Qed.

Section Sums.

Lemma sumList_cons (x : Z) (l : list Z) : sumList (x :: l) = x + sumList l.
Proof. reflexivity. Qed.

Lemma sumList_app (l1 l2 : list Z) :
  sumList (l1 ++ l2) = sumList l1 + sumList l2.
Proof.
  induction l1 as [|x l1 IH]; [done|].
  rewrite <- app_comm_cons, !sumList_cons, IH. lia.
Qed.

Lemma sumList_fmap_add {A} (f g : A → Z) (l : list A) :
  sumList ((λ x, f x + g x) <$> l) = sumList (f <$> l) + sumList (g <$> l).
Proof.
  induction l as [|x l IH]; [done|].
  rewrite !fmap_cons, !sumList_cons, IH. lia.
Qed.

Lemma sumList_fmap_zero {A} (l : list A) : sumList ((λ _, 0) <$> l) = 0.
Proof.
  induction l as [|x l IH]; [done|]. by rewrite fmap_cons, sumList_cons, IH.
Qed.

Lemma sumList_fmap_ext {A} (f g : A → Z) (l : list A) :
  (∀ x, x ∈ l → f x = g x) → sumList (f <$> l) = sumList (g <$> l).
Proof.
  intros H. f_equal. apply list_fmap_ext. intros i x Hx. apply H.
  by eapply list_elem_of_lookup_2.
Qed.

(** Summing a table by rows or by columns. *)
Lemma sumList_swap {A B} (f : A → B → Z) (rows : list A) (cols : list B) :
  sumList ((λ c, sumList ((λ r, f r c) <$> rows)) <$> cols) =
  sumList ((λ r, sumList ((λ c, f r c) <$> cols)) <$> rows).
Proof.
  induction cols as [|c cols IH].
  - rewrite fmap_nil. symmetry. apply sumList_fmap_zero.
  - rewrite fmap_cons, sumList_cons, IH, <- sumList_fmap_add.
    apply sumList_fmap_ext. intros r _. by rewrite fmap_cons, sumList_cons.
Qed.

(** A counter to which each pass of a loop adds [f i] ends at its start
    value plus the sum of the [f i]. *)
Lemma fold_left_sum {S} (step : S → Z → S) (get : S → Z) (f : Z → Z)
    (days : list Z) (init : S) :
  (∀ acc i, get (step acc i) = get acc + f i) →
  get (fold_left step days init) = get init + sumList (f <$> days).
Proof.
  intros Hstep. revert init.
  induction days as [|i days IH]; intros init.
  - rewrite fmap_nil. unfold sumList. simpl. lia.
  - rewrite fmap_cons, sumList_cons. simpl fold_left. rewrite IH, Hstep. lia.
Qed.

(** With every key below [n], the count of a day is the number of indices
    below [n] that read as completed. *)
Lemma completedCount_sum (n : nat) (dayComp : gmap Z bool) :
  (∀ t, is_Some (dayComp !! t) → 0 ≤ t < Z.of_nat n) →
  completedCount dayComp =
  sumList ((λ t, if currentState dayComp t then 1 else 0)
             <$> seqZ 0 (Z.of_nat n)).
Proof.
  revert dayComp. induction n as [|n IH]; intros dayComp Hrange.
  - assert (dayComp = ∅) as ->.
    { apply map_empty. intros t. apply eq_None_not_Some. intros Ht.
      specialize (Hrange t Ht). lia. }
    by rewrite completedCount_empty.
  - rewrite seqZ_S, fmap_app, sumList_app.
    rewrite (fmap_cons _ _ []), fmap_nil, sumList_cons. rewrite Z.add_0_l.
    rewrite (completedCount_delete dayComp (Z.of_nat n)).
    rewrite (IH (delete (Z.of_nat n) dayComp)).
    + change (sumList []) with 0.
      rewrite (sumList_fmap_ext
                 (λ t, if currentState (delete (Z.of_nat n) dayComp) t
                       then 1 else 0)
                 (λ t, if currentState dayComp t then 1 else 0)); [lia|].
      intros t Ht%elem_of_seqZ. unfold currentState.
      by rewrite lookup_delete_ne by lia.
    + intros t [x Hx]. apply lookup_delete_Some in Hx as [Hne Hx].
      specialize (Hrange t (ex_intro _ x Hx)). lia.
Qed.

End Sums.

Section ArchiveFigures.
Variable archivedChallenge : ArchivedChallenge.

Let days := seqZ 0 (a_totalDays archivedChallenge).
Let dayComp (i : Z) : gmap Z bool :=
  default ∅ (a_completions archivedChallenge !! i).

Lemma archiveTotals_totalTasksCompleted :
  totalTasksCompleted (archiveTotals archivedChallenge) =
  sumList ((λ i, completedCount (dayComp i)) <$> days).
Proof.
  unfold archiveTotals.
  by rewrite (fold_left_sum _ totalTasksCompleted
                (λ i, completedCount (dayComp i))).
Qed.

Lemma archiveTotals_totalPossibleTasks :
  totalPossibleTasks (archiveTotals archivedChallenge) =
  Z.max 0 (a_totalDays archivedChallenge)
  * Z.of_nat (length (a_tasks archivedChallenge)).
Proof.
  unfold archiveTotals.
  rewrite (fold_left_sum _ totalPossibleTasks
             (λ _, Z.of_nat (length (a_tasks archivedChallenge)))); [|done].
  simpl. generalize (Z.of_nat (length (a_tasks archivedChallenge))). intros k.
  assert (∀ l : list Z, sumList ((λ _, k) <$> l) = Z.of_nat (length l) * k)
    as Hconst.
  { induction l as [|x l IH]; [done|].
    rewrite fmap_cons, sumList_cons, IH. simpl length. lia. }
  rewrite Hconst, length_seqZ. lia.
Qed.

Lemma taskCompleted_sum (taskIndex : Z) :
  taskCompleted archivedChallenge taskIndex =
  sumList ((λ i, if currentState (dayComp i) taskIndex then 1 else 0) <$> days).
Proof.
  unfold taskCompleted.
  refine (fold_left_sum _ (λ x : Z, x)
            (λ i, if currentState (dayComp i) taskIndex then 1 else 0) _ 0 _).
  intros acc i. fold (dayComp i). destruct (currentState _ _); lia.
Qed.

Lemma taskCompletedList_seqZ :
  taskCompletedList archivedChallenge =
  taskCompleted archivedChallenge
    <$> seqZ 0 (Z.of_nat (length (a_tasks archivedChallenge))).
Proof.
  unfold taskCompletedList, seqZ. rewrite Nat2Z.id.
  rewrite (imap_seq_0 _ (λ j, taskCompleted archivedChallenge (Z.of_nat j))).
  rewrite <- list_fmap_compose. apply list_fmap_ext. intros _ j _. simpl.
  f_equal. lia.
Qed.

End ArchiveFigures.

(** X8.  The figures of the archive detail.  The points are at most one per day
    of the challenge, and the possible total is days times tasks.  When
    every task index stored for a day of the challenge is an index of its
    task list, no day counts more completed tasks than there are tasks, so
    the completed total is at most the possible one (the completion
    percentage is at most 100). *)
Theorem archiveTotals_bounds (archivedChallenge : ArchivedChallenge) :
  let totals := archiveTotals archivedChallenge in
  let tasks := Z.of_nat (length (a_tasks archivedChallenge)) in
  0 ≤ ar_totalPoints totals ≤ Z.max 0 (a_totalDays archivedChallenge) ∧
  totalPossibleTasks totals = Z.max 0 (a_totalDays archivedChallenge) * tasks ∧
  0 ≤ totalTasksCompleted totals ∧
  ((∀ d dayComp t,
      0 ≤ d < a_totalDays archivedChallenge →
      a_completions archivedChallenge !! d = Some dayComp →
      is_Some (dayComp !! t) → 0 ≤ t < tasks) →
   totalTasksCompleted totals ≤ totalPossibleTasks totals).
Proof.
  intros totals tasks. subst totals tasks. split; [|split; [|split]].
  - rewrite archiveTotals_totalPoints.
    pose proof (sublist_length _ _
      (List_filter_sublist (archiveCounts archivedChallenge)
         (seqZ 0 (a_totalDays archivedChallenge)))) as Hlen.
    rewrite length_seqZ in Hlen. lia.
  - apply archiveTotals_totalPossibleTasks.
  - unfold archiveTotals.
    apply (fold_left_invariant _ (λ acc, 0 ≤ totalTasksCompleted acc));
      [done|].
    intros acc i _ Hacc. simpl.
    pose proof (completedCount_nonneg
                  (default ∅ (a_completions archivedChallenge !! i))). lia.
  - intros Hrange. unfold archiveTotals.
    apply (fold_left_invariant _
             (λ acc, totalTasksCompleted acc ≤ totalPossibleTasks acc));
      [done|].
    intros acc i Hi%elem_of_seqZ Hacc. simpl.
    enough (completedCount (default ∅ (a_completions archivedChallenge !! i))
            ≤ Z.of_nat (length (a_tasks archivedChallenge))) by lia.
    etransitivity; [apply completedCount_le_keys|].
    apply inj_le, length_keys_in_range. intros t Ht.
    destruct (a_completions archivedChallenge !! i) as [dayComp|] eqn:Hday.
    + apply (Hrange i dayComp t); [lia|done|done].
    + simpl in Ht. rewrite lookup_empty in Ht. by destruct Ht.
Qed.

(** The stored task indices of [fullCompletions] are those of the two
    tasks. *)
Lemma fullCompletions_in_range (d : Z) (dayComp : gmap Z bool) (t : Z) :
  0 ≤ d < 3 → fullCompletions !! d = Some dayComp →
  is_Some (dayComp !! t) → 0 ≤ t < 2.
Proof.
  intros Hd Hday Ht%elem_of_dom.
  assert (d = 0 ∨ d = 1 ∨ d = 2) as [-> | [-> | ->]] by lia.
  - assert (dayComp = <[0 := true]> {[1 := true]}) as ->
      by (vm_compute in Hday; by injection Hday as <-).
    rewrite dom_insert_L, dom_singleton_L in Ht.
    apply elem_of_union in Ht as [Ht%elem_of_singleton|Ht%elem_of_singleton]; lia.
  - assert (dayComp = <[0 := true]> {[1 := false]}) as ->
      by (vm_compute in Hday; by injection Hday as <-).
    rewrite dom_insert_L, dom_singleton_L in Ht.
    apply elem_of_union in Ht as [Ht%elem_of_singleton|Ht%elem_of_singleton]; lia.
  - assert (dayComp = {[1 := true]}) as ->
      by (vm_compute in Hday; by injection Hday as <-).
    rewrite dom_singleton_L in Ht. apply elem_of_singleton in Ht. lia.
Qed.

Lemma archiveTotals_bounds_witness :
  totalTasksCompleted
    (archiveTotals (Store.archiveEntry scenarioChallenge fullCompletions 0))
  ≤ totalPossibleTasks
      (archiveTotals (Store.archiveEntry scenarioChallenge fullCompletions 0)).
Proof.
  apply (archiveTotals_bounds
           (Store.archiveEntry scenarioChallenge fullCompletions 0)).
  exact fullCompletions_in_range.
Defined.

(** X9.  The per-task bars of the archive detail.  Under the same condition on
    the stored task indices, the per-task counts of completed days add up
    to the completed total shown above them. *)
Theorem taskCompleted_adds_up (archivedChallenge : ArchivedChallenge) :
  (∀ d dayComp t,
     0 ≤ d < a_totalDays archivedChallenge →
     a_completions archivedChallenge !! d = Some dayComp →
     is_Some (dayComp !! t) →
     0 ≤ t < Z.of_nat (length (a_tasks archivedChallenge))) →
  sumList (taskCompletedList archivedChallenge) =
  totalTasksCompleted (archiveTotals archivedChallenge).
Proof.
  intros Hrange.
  rewrite taskCompletedList_seqZ, archiveTotals_totalTasksCompleted.
  rewrite (sumList_fmap_ext _ _ _
             (λ t _, taskCompleted_sum archivedChallenge t)).
  rewrite (sumList_swap
             (λ i t, if currentState
                          (default ∅ (a_completions archivedChallenge !! i)) t
                     then 1 else 0)).
  apply sumList_fmap_ext. intros i Hi%elem_of_seqZ. symmetry.
  apply completedCount_sum. intros t Ht.
  destruct (a_completions archivedChallenge !! i) as [dayComp|] eqn:Hday.
  - apply (Hrange i dayComp t); [lia|done|done].
  - simpl in Ht. rewrite lookup_empty in Ht. by destruct Ht.
Qed.

Lemma taskCompleted_adds_up_witness :
  sumList (taskCompletedList
             (Store.archiveEntry scenarioChallenge fullCompletions 0)) = 4.
Proof.
  rewrite (taskCompleted_adds_up
             (Store.archiveEntry scenarioChallenge fullCompletions 0)
             fullCompletions_in_range).
  by vm_compute.
Defined.

(** * Further properties of the dates *)

Section FixedZone.
Import DateUtils.
Variable off : Z.
Let tz := fixedZone off.

(** In a zone without daylight saving a date string parses to a local
    midnight, that of the local day at which its UTC midnight falls. *)
Lemma parseDate_fixedZone dateString :
  parseDate tz dateString = localDay tz (newDate dateString) * msPerDay - off.
Proof. reflexivity. Qed.

Lemma localDay_mono now1 now2 :
  now1 ≤ now2 → localDay tz now1 ≤ localDay tz now2.
Proof.
  intros Hle. unfold localDay, LocalTime, Day. simpl.
  apply Z.div_le_mono; [by rewrite msPerDay_eq|lia].
Qed.

(** The three outcomes in terms of calendar days: [today] is the local day
    of the clock, [start] the local day the start string parses to. *)
Lemma getChallengeStatus_fixedZone now ls challenge day :
  Store.getChallenge ls = Some challenge →
  startDate challenge = ISODate day →
  let today := localDay tz now in
  let start := localDay tz (newDate day) in
  Store.getChallengeStatus tz now ls =
  Some (if today <? start then Store.pending
        else if start + totalDays challenge <=? today
             then Store.completed else Store.active).
Proof.
  intros Hc Hday today start.
  rewrite (getChallengeStatus_valid tz now ls challenge day Hc Hday).
  unfold tz. rewrite addDate_fixedZone. fold tz.
  rewrite parseDate_fixedZone. fold start.
  unfold getToday, tz. rewrite setHours0_fixedZone. fold tz. fold today.
  rewrite msPerDay_eq.
  destruct (Z.ltb_spec today start),
           (Z.leb_spec (start + totalDays challenge) today);
    repeat case_match; try done;
    repeat match goal with
           | H : (_ <? _) = _ |- _ => first [apply Z.ltb_lt in H | apply Z.ltb_ge in H]
           | H : (_ <=? _) = _ |- _ => first [apply Z.leb_le in H | apply Z.leb_gt in H]
           end; lia.
Qed.

Lemma daysPassed_fixedZone now day :
  daysBetween (parseDate tz day) (getToday tz now) =
  localDay tz now - localDay tz (newDate day).
Proof. apply (daysBetween_fixedZone off (newDate day) now). Qed.

Lemma getDaysUntilStart_fixedZone now ls challenge day :
  Store.getChallenge ls = Some challenge →
  startDate challenge = ISODate day →
  Store.getDaysUntilStart tz now ls =
  Some (localDay tz (newDate day) - localDay tz now).
Proof.
  intros Hc Hday. unfold Store.getDaysUntilStart. rewrite Hc, Hday.
  simpl. f_equal.
  apply (daysBetween_fixedZone off now (newDate day)).
Qed.

Lemma getCurrentDayIndex_fixedZone now ls challenge day :
  Store.getChallenge ls = Some challenge →
  startDate challenge = ISODate day →
  Store.getCurrentDayIndex tz now ls =
  Some (Z.max 0 (Z.min (localDay tz now - localDay tz (newDate day))
                   (totalDays challenge - 1))).
Proof.
  intros Hc Hday. unfold Store.getCurrentDayIndex. rewrite Hc, Hday.
  simpl. do 3 f_equal. apply daysPassed_fixedZone.
Qed.

End FixedZone.

(** X10.  In a zone without daylight saving a challenge never goes back: between
    two readings of the clock its status stays the same or moves forward
    in the order pending, active, completed. *)
Theorem getChallengeStatus_monotone (off now1 now2 : Z) (ls : LocalStorage)
    (status1 status2 : Store.Status) :
  now1 ≤ now2 →
  Store.getChallengeStatus (DateUtils.fixedZone off) now1 ls = Some status1 →
  Store.getChallengeStatus (DateUtils.fixedZone off) now2 ls = Some status2 →
  statusRank status1 ≤ statusRank status2.
Proof.
  intros Hle H1 H2.
  destruct (Store.getChallenge ls) as [c|] eqn:Hc;
    [|by unfold Store.getChallengeStatus in H1; rewrite Hc in H1].
  destruct (startDate c) as [day|] eqn:Hday; cycle 1.
  { rewrite (getChallengeStatus_no_date _ now1 ls c Hc Hday) in H1.
    rewrite (getChallengeStatus_no_date _ now2 ls c Hc Hday) in H2.
    by simplify_eq. }
  rewrite (getChallengeStatus_fixedZone off now1 ls c day Hc Hday) in H1.
  rewrite (getChallengeStatus_fixedZone off now2 ls c day Hc Hday) in H2.
  pose proof (localDay_mono off now1 now2 Hle) as Hmono.
  repeat case_match; simplify_eq; simpl; try lia;
    repeat match goal with
           | H : (_ <? _) = _ |- _ => first [apply Z.ltb_lt in H | apply Z.ltb_ge in H]
           | H : (_ <=? _) = _ |- _ => first [apply Z.leb_le in H | apply Z.leb_gt in H]
           end; lia.
Qed.

Lemma getChallengeStatus_monotone_witness :
  statusRank Store.pending ≤ statusRank Store.active.
Proof.
  apply (getChallengeStatus_monotone 3600000 noonParisBefore noonParis
           (challengeStarting 19792 30)).
  - vm_compute. discriminate.
  - reflexivity.
  - reflexivity.
Defined.

(** X11.  In a zone without daylight saving, for a stored challenge whose
    start date is a date-only string, the day index agrees with the
    status.  While pending the index is 0 and the days until the start are
    positive (and only then); while active the index is the number of days
    since the parsed start, unclamped, and the days until the start are its
    opposite; once completed the index is the last day.  For a stored
    challenge whose start date is the empty string the status is active
    while the index and the days until the start are [NaN]. *)
Theorem getCurrentDayIndex_by_status (off now : Z) (ls : LocalStorage)
    (challenge : Challenge) :
  Store.getChallenge ls = Some challenge →
  let tz := DateUtils.fixedZone off in
  let status := Store.getChallengeStatus tz now ls in
  (∀ day, startDate challenge = ISODate day →
     ∃ index untilStart,
       Store.getCurrentDayIndex tz now ls = Some index ∧
       Store.getDaysUntilStart tz now ls = Some untilStart ∧
       (status = Some Store.pending ↔ 0 < untilStart) ∧
       (status = Some Store.pending → index = 0) ∧
       (status = Some Store.active →
        index = - untilStart ∧ 0 ≤ index < totalDays challenge) ∧
       (status = Some Store.completed → 1 ≤ totalDays challenge →
        index = totalDays challenge - 1)) ∧
  (startDate challenge = NoDate →
   status = Some Store.active ∧
   Store.getCurrentDayIndex tz now ls = None ∧
   Store.getDaysUntilStart tz now ls = None).
Proof.
  intros Hc tz status. subst tz status. split.
  - intros day Hday.
    rewrite (getChallengeStatus_fixedZone off now ls challenge day Hc Hday).
    rewrite (getDaysUntilStart_fixedZone off now ls challenge day Hc Hday).
    rewrite (getCurrentDayIndex_fixedZone off now ls challenge day Hc Hday).
    do 2 eexists. split; [reflexivity|]. split; [reflexivity|].
    set (today := DateUtils.localDay (DateUtils.fixedZone off) now).
    set (start := DateUtils.localDay (DateUtils.fixedZone off)
                    (DateUtils.newDate day)).
    destruct (Z.ltb_spec today start),
             (Z.leb_spec (start + totalDays challenge) today);
      repeat split; intros; try done; try lia.
  - intros Hday. rewrite (getChallengeStatus_no_date _ now ls challenge Hc Hday).
    unfold Store.getCurrentDayIndex, Store.getDaysUntilStart.
    by rewrite Hc, Hday.
Qed.

Lemma getCurrentDayIndex_by_status_witness :
  Store.getCurrentDayIndex (DateUtils.fixedZone 3600000) noonParis
    (challengeStarting 19792 30) = Some 5.
Proof.
  pose proof (getCurrentDayIndex_by_status 3600000 noonParis
                (challengeStarting 19792 30) _ eq_refl) as H.
  cbv zeta in H. destruct H as [H _].
  destruct (H 19792 eq_refl) as (index & untilStart & Hidx & Huntil & _ & _ & Hact & _).
  rewrite Hidx. f_equal.
  destruct Hact as [-> _]; [reflexivity|].
  assert (Some untilStart = Some (-5)) as [= ->] by (rewrite <- Huntil; reflexivity).
  reflexivity.
Defined.

(** X12.  The proposed start date does not parse back to today.  In a zone
    without daylight saving, [toISODate] of today's local midnight names
    the UTC day of that instant and [parseDate] clears the hours of that
    day's UTC midnight in local time: the result is today's midnight only
    when the zone is UTC, and the midnight of yesterday in every other
    zone, so that a challenge created with the proposed date is one day
    old on the day it is created. *)
Theorem defaultStartDate_round_trip (off now : Z) :
  - DateUtils.msPerDay < off < DateUtils.msPerDay →
  let tz := DateUtils.fixedZone off in
  let parsed := DateUtils.parseDate tz (defaultStartDate tz now) in
  parsed =
    DateUtils.getToday tz now - (if off =? 0 then 0 else DateUtils.msPerDay) ∧
  DateUtils.daysBetween parsed (DateUtils.getToday tz now) =
    (if off =? 0 then 0 else 1).
Proof.
  intros Hoff tz parsed. subst tz parsed.
  set (today := DateUtils.localDay (DateUtils.fixedZone off) now).
  assert (DateUtils.getToday (DateUtils.fixedZone off) now
          = today * DateUtils.msPerDay - off) as Htoday by reflexivity.
  assert (DateUtils.parseDate (DateUtils.fixedZone off)
            (defaultStartDate (DateUtils.fixedZone off) now) =
          DateUtils.getToday (DateUtils.fixedZone off) now
          - (if off =? 0 then 0 else DateUtils.msPerDay)) as Hparsed.
  { unfold defaultStartDate, DateUtils.toISODate. rewrite Htoday.
    destruct (Z.eqb_spec off 0) as [->|Hne].
    - rewrite (Day_unique _ today) by lia.
      rewrite parseDate_east by (rewrite msPerDay_eq; lia). lia.
    - destruct (Z.lt_ge_cases off 0).
      + rewrite (Day_unique _ today) by lia.
        rewrite parseDate_west by lia. lia.
      + rewrite (Day_unique _ (today - 1)) by lia.
        rewrite parseDate_east by lia. lia. }
  split; [done|]. rewrite Hparsed. unfold DateUtils.daysBetween.
  destruct (off =? 0).
  - replace (_ - _) with 0 by lia. reflexivity.
  - replace (_ - _) with (1 * DateUtils.msPerDay) by lia.
    apply Z.div_mul. by rewrite msPerDay_eq.
Qed.

(** Paris and Bogota: the proposed date parses to yesterday's midnight. *)
Lemma defaultStartDate_round_trip_witness :
  DateUtils.daysBetween
    (DateUtils.parseDate (DateUtils.fixedZone 3600000)
       (defaultStartDate (DateUtils.fixedZone 3600000) noonParis))
    (DateUtils.getToday (DateUtils.fixedZone 3600000) noonParis) = 1 ∧
  DateUtils.daysBetween
    (DateUtils.parseDate bogota (defaultStartDate bogota noonBogota))
    (DateUtils.getToday bogota noonBogota) = 1.
Proof.
  split.
  - apply (defaultStartDate_round_trip 3600000 noonParis). vm_compute.
    split; reflexivity.
  - apply (defaultStartDate_round_trip (-5 * DateUtils.msPerHour) noonBogota).
    vm_compute. split; reflexivity.
Defined.

(** * Further properties of the handlers *)

(** X15.  The steppers keep the numbers of the form within their ranges, and a
    press that would leave the range changes nothing: the duration stays in
    1..365, the reward in 1..100, the daily goal between 1 and the number
    of task rows (10 when there is no row). *)
Theorem adjust_keeps_range (delta value : Z) (taskItemCount : nat) :
  let maxTasks := if (taskItemCount =? 0)%nat then 10 else Z.of_nat taskItemCount in
  (1 ≤ value ≤ 365 → 1 ≤ adjustDays delta value ≤ 365) ∧
  (1 ≤ value ≤ maxTasks → 1 ≤ adjustThreshold delta value taskItemCount ≤ maxTasks) ∧
  (1 ≤ value ≤ 100 → 1 ≤ adjustPoints delta value ≤ 100) ∧
  (¬ 1 ≤ value + delta ≤ 365 → adjustDays delta value = value) ∧
  (¬ 1 ≤ value + delta ≤ maxTasks →
   adjustThreshold delta value taskItemCount = value) ∧
  (¬ 1 ≤ value + delta ≤ 100 → adjustPoints delta value = value).
Proof.
  intros maxTasks. unfold adjustDays, adjustThreshold, adjustPoints.
  fold maxTasks. cbv zeta.
  repeat split; intros;
    repeat match goal with
           | |- context [?a <=? ?b] => destruct (Z.leb_spec a b)
           end; simpl; lia.
Qed.

Lemma adjust_keeps_range_witness :
  adjustDays 1 365 = 365 ∧ 1 ≤ adjustThreshold (-1) 1 3 ≤ 3.
Proof.
  split.
  - apply (adjust_keeps_range 1 365 0). lia.
  - apply (adjust_keeps_range (-1) 1 3). simpl. lia.
Defined.

Section HandlerLemmas.
Import DateUtils.
Variable tz : TimeZone.

Lemma withDayIndex_id s : withDayIndex (currentDayIndex s) s = s.
Proof. by destruct s. Qed.

(** With the day on screen in range, changing the tab only records the
    tab. *)
Lemma switchTab_in_range tabName now s :
  dayIndexInRange s → switchTab tz tabName now s = withTab tabName s.
Proof.
  intros Hin. unfold switchTab, renderCurrentTab.
  destruct tabName; simpl; try done.
  by apply renderDailyTab_in_range.
Qed.

Lemma switchTab_setup tabName now s :
  tabName ≠ daily → switchTab tz tabName now s = withTab tabName s.
Proof. intros Hne. unfold switchTab, renderCurrentTab. by destruct tabName. Qed.

Lemma navigateDay_in_range delta now s :
  dayIndexInRange s →
  navigateDay tz delta now s =
  match Store.getChallenge (localStorage s) with
  | None => s
  | Some challenge =>
      if (0 <=? currentDayIndex s + delta)
         && (currentDayIndex s + delta <? totalDays challenge)
      then withDayIndex (currentDayIndex s + delta) s
      else s
  end.
Proof.
  intros Hin. unfold navigateDay.
  destruct (Store.getChallenge (localStorage s)) as [c|] eqn:Hc; [|done].
  destruct (_ && _) eqn:Hnew; [|done].
  apply renderDailyTab_in_range. intros c' Hc'. simpl in *.
  rewrite Hc in Hc'. injection Hc' as <-.
  apply andb_prop in Hnew as [H1%Z.leb_le H2%Z.ltb_lt]. lia.
Qed.

End HandlerLemmas.

(** X16.  The day arrows.  With the day on screen in range, a step that stays
    within the challenge's days moves by exactly that step and the opposite
    step brings the screen back; a step that would leave the days changes
    nothing.  No step writes to the storage. *)
Theorem navigateDay_steps (tz : DateUtils.TimeZone) (delta now : Z)
    (s : AppState) (challenge : Challenge) :
  Store.getChallenge (localStorage s) = Some challenge →
  0 ≤ currentDayIndex s < totalDays challenge →
  let s' := navigateDay tz delta now s in
  localStorage s' = localStorage s ∧
  0 ≤ currentDayIndex s' < totalDays challenge ∧
  (0 ≤ currentDayIndex s + delta < totalDays challenge →
   currentDayIndex s' = currentDayIndex s + delta ∧
   ∀ now', navigateDay tz (- delta) now' s' = s) ∧
  (¬ 0 ≤ currentDayIndex s + delta < totalDays challenge → s' = s).
Proof.
  intros Hc Hidx s'. subst s'.
  assert (dayIndexInRange s) as Hin.
  { intros c. rewrite Hc. by intros [= <-]. }
  rewrite (navigateDay_in_range tz delta now s Hin), Hc.
  destruct (Z.leb_spec 0 (currentDayIndex s + delta)),
           (Z.ltb_spec (currentDayIndex s + delta) (totalDays challenge));
    simpl; repeat split; try done; try lia.
  intros now'. rewrite navigateDay_in_range.
  - simpl. rewrite Hc.
    replace (currentDayIndex s + delta + - delta) with (currentDayIndex s) by lia.
    rewrite (proj2 (Z.leb_le 0 (currentDayIndex s))) by lia.
    rewrite (proj2 (Z.ltb_lt (currentDayIndex s) (totalDays challenge))) by lia.
    simpl. by destruct s.
  - intros c. simpl. rewrite Hc. intros [= <-]. lia.
Qed.

Lemma navigateDay_steps_witness :
  currentDayIndex
    (navigateDay (DateUtils.fixedZone 3600000) 1 noonParis activeState) = 6.
Proof.
  pose proof (navigateDay_steps (DateUtils.fixedZone 3600000) 1 noonParis
                activeState _ eq_refl) as H.
  cbv zeta in H. destruct H as (_ & _ & H & _); [simpl; lia|].
  destruct H as [H _]; [simpl; lia|]. exact H.
Defined.

(** X17.  What a submission leaves behind.  After an alert the state is the one
    before.  Otherwise the stored challenge has at least one task, every
    task has a name, and the daily goal does not exceed the number of
    tasks; the completions and the archive are the ones found, the day on
    screen is day 0 and the tab is the daily one. *)
Theorem handleChallengeSubmit_result (tz : DateUtils.TimeZone) (form : Form)
    (now : Z) (s : AppState) :
  let result := handleChallengeSubmit tz form now s in
  (∀ alert, result.2 = Some alert → result.1 = s) ∧
  (result.2 = None →
   ∃ challenge,
     Store.getChallenge (localStorage result.1) = Some challenge ∧
     tasks challenge ≠ [] ∧
     Forall (λ task, name task ≠ EmptyString) (tasks challenge) ∧
     pointThreshold challenge ≤ Z.of_nat (length (tasks challenge)) ∧
     completions (localStorage result.1) = completions (localStorage s) ∧
     archive (localStorage result.1) = archive (localStorage s) ∧
     currentDayIndex result.1 = 0 ∧
     currentTab result.1 = daily).
Proof.
  intros result. subst result.
  destruct (handleChallengeSubmit_outcomes tz form now s)
    as [(alert & Heq & _)|(Hnone & Hsaved & Hne & Hthr)].
  - rewrite Heq. simpl. split; [done|]. discriminate.
  - split; [intros alert Halert; congruence|]. intros _.
    exists (submittedChallenge form now). split; [done|]. split; [done|].
    split.
    { simpl. unfold submittedTasks. apply Forall_forall. intros task Htask.
      apply list_elem_of_In, List.filter_In in Htask as [_ Hname].
      by destruct (name task). }
    split; [done|].
    clear Hnone Hsaved. unfold handleChallengeSubmit. cbv zeta.
    fold (submittedTasks form).
    destruct (length (submittedTasks form) =? 0)%nat eqn:Hlen.
    { apply Nat.eqb_eq, nil_length_inv in Hlen. done. }
    rewrite (proj2 (Z.ltb_ge _ _) Hthr). cbn [fst].
    unfold switchTab, renderCurrentTab. cbn [currentTab withTab].
    unfold renderDailyTab. cbn [localStorage withTab withDayIndex withStorage].
    cbn [Store.getChallenge Store.saveChallenge activeChallenge].
    destruct (Store.getChallengeStatus _ _ _) as [[]|];
      cbn; repeat split; lia.
Qed.

Lemma handleChallengeSubmit_result_witness :
  currentDayIndex
    (handleChallengeSubmit (DateUtils.fixedZone 3600000) renamingForm
       noonParisBefore activeState).1 = 0.
Proof.
  pose proof (handleChallengeSubmit_result (DateUtils.fixedZone 3600000)
                renamingForm noonParisBefore activeState) as H.
  cbv zeta in H. destruct H as [_ H].
  destruct H as (c & _ & _ & _ & _ & _ & _ & H & _); [reflexivity|exact H].
Defined.

(** X18.  Deleting a pending challenge.  Declined, the handler changes nothing.
    Confirmed, it removes the challenge and the completions, keeps every
    archived challenge (and the archive entry on screen), and returns to
    day 0 of the setup tab; it does so whatever the status, which it does
    not read. *)
Theorem confirmDeletePending_keeps_archive (tz : DateUtils.TimeZone)
    (now : Z) (s : AppState) :
  confirmDeletePending tz false now s = s ∧
  let s' := confirmDeletePending tz true now s in
  Store.getChallenge (localStorage s') = None ∧
  Store.getCompletions (localStorage s') = ∅ ∧
  archive (localStorage s') = archive (localStorage s) ∧
  currentArchiveIndex s' = currentArchiveIndex s ∧
  currentDayIndex s' = 0 ∧
  currentTab s' = setup.
Proof. by repeat split. Qed.

(** X19.  Clearing all data takes both confirmations: with either one declined
    the state is unchanged.  With both given, the three records are gone,
    no archive entry is left on screen, and the page is on day 0 of the
    setup tab. *)
Theorem confirmClearAll_two_confirmations (tz : DateUtils.TimeZone)
    (ok1 ok2 : bool) (now : Z) (s : AppState) :
  let s' := confirmClearAll tz ok1 ok2 now s in
  (ok1 && ok2 = false → s' = s) ∧
  (ok1 && ok2 = true →
   localStorage s' =
     {| activeChallenge := None; completions := None; archive := None |} ∧
   currentArchiveIndex s' = None ∧
   archiveDetailShown s' = None ∧
   currentDayIndex s' = 0 ∧
   currentTab s' = setup).
Proof. by destruct ok1, ok2. Qed.

Lemma confirmClearAll_two_confirmations_witness :
  confirmClearAll (DateUtils.fixedZone 0) true false 0 sampleState = sampleState ∧
  Store.getArchive
    (localStorage (confirmClearAll (DateUtils.fixedZone 0) true true 0 sampleState))
  = [].
Proof.
  split.
  - apply (confirmClearAll_two_confirmations (DateUtils.fixedZone 0) true false).
    reflexivity.
  - destruct (confirmClearAll_two_confirmations (DateUtils.fixedZone 0)
                true true 0 sampleState) as [_ H].
    destruct H as [H _]; [reflexivity|]. by rewrite H.
Defined.

(** X20.  The settings tab and the setup tab read the status alike: archiving is
    offered exactly when the setup tab shows the locked summary, deleting
    exactly when it shows the editing form.  For a stored challenge whose
    days are over the settings tab offers neither and reads as if no
    challenge were stored, and the setup tab shows the empty creation
    form. *)
Theorem settings_and_setup_agree (tz : DateUtils.TimeZone) (now : Z)
    (s : AppState) :
  (renderSettingsTab tz now s = OfferArchive ↔
   ∃ challenge, renderSetupTab tz now s = LockedSummary challenge) ∧
  (renderSettingsTab tz now s = OfferDeletePending ↔
   ∃ challenge, renderSetupTab tz now s = ChallengeForm (Some challenge) true) ∧
  (Store.getChallengeStatus tz now (localStorage s) = Some Store.completed →
   renderSettingsTab tz now s = NoChallengeCreated ∧
   renderSetupTab tz now s = ChallengeForm None false).
Proof.
  unfold renderSettingsTab, renderSetupTab.
  destruct (Store.getChallenge (localStorage s)) as [c|];
    destruct (Store.getChallengeStatus tz now (localStorage s)) as [[]|];
    repeat split; try done; try (by intros [? ?]); eauto.
Qed.

Lemma settings_and_setup_agree_witness :
  renderSettingsTab (DateUtils.fixedZone 3600000)
    (19830 * 86400000) activeState = NoChallengeCreated.
Proof.
  apply (settings_and_setup_agree (DateUtils.fixedZone 3600000)
           (19830 * 86400000) activeState).
  reflexivity.
Defined.

Section Invariants.
Import DateUtils.
Variable tz : TimeZone.

(** With a date-only string stored, or no challenge, the initial render
    ends in a state with an integer day index. *)
Lemma initialRender_is_Some now ls :
  (∀ challenge, Store.getChallenge ls = Some challenge →
                startDate challenge ≠ NoDate) →
  is_Some (initialRender tz now (initialState ls)).
Proof.
  intros Hdate. unfold initialRender. simpl.
  destruct (Store.getChallenge ls) as [c|] eqn:Hc; [|eauto].
  unfold Store.getCurrentDayIndex. rewrite Hc.
  specialize (Hdate c eq_refl).
  destruct (startDate c); [simpl; eauto|done].
Qed.

Lemma initialRender_invariant now ls s0 :
  (∀ challenge, Store.getChallenge ls = Some challenge → 1 ≤ totalDays challenge) →
  initialRender tz now (initialState ls) = Some s0 →
  dayIndexInRange s0 ∧ archiveIndexValid s0.
Proof.
  intros Hdays. unfold initialRender. simpl.
  destruct (Store.getChallenge ls) as [c|] eqn:Hc.
  - destruct (Store.getCurrentDayIndex tz now ls) as [index|] eqn:Hindex;
      [|done].
    simpl. intros [= <-].
    assert (dayIndexInRange (withDayIndex index (initialState ls))) as Hin.
    { intros c'. simpl. rewrite Hc. intros [= <-].
      specialize (Hdays c eq_refl).
      unfold Store.getCurrentDayIndex in Hindex. rewrite Hc in Hindex.
      destruct (parseDateString tz (startDate c)); simplify_eq/=. lia. }
    rewrite switchTab_in_range by done. split; [done|]. by intros i.
  - intros [= <-]. rewrite switchTab_setup by done. split.
    + intros c. simpl. by rewrite Hc.
    + by intros i.
Qed.

Lemma handleEvent_invariant now e s :
  dayIndexInRange s → archiveIndexValid s → offered e s →
  dayIndexInRange (handleEvent tz now e s) ∧
  archiveIndexValid (handleEvent tz now e s).
Proof.
  intros Hday Harch Hoff. destruct e; simpl in *.
  - by rewrite switchTab_in_range.
  - rewrite navigateDay_in_range by done.
    destruct (Store.getChallenge (localStorage s)) as [c|] eqn:Hc; [|done].
    destruct (_ && _) eqn:Hnew; [|done]. split; [|done].
    intros c'. simpl. rewrite Hc. intros [= <-].
    apply andb_prop in Hnew as [H1%Z.leb_le H2%Z.ltb_lt]. lia.
  - rewrite toggleTask_in_range by done.
    by destruct (Store.getChallenge (localStorage s)).
  - unfold handleChallengeSubmit. cbv zeta.
    destruct (length _ =? 0)%nat; [done|].
    destruct (_ <? _); [done|]. cbn [fst].
    rewrite switchTab_in_range.
    + split; [|done]. intros c. simpl. intros [= <-]. simpl. lia.
    + intros c. simpl. intros [= <-]. simpl. lia.
  - destruct ok; [|done]. unfold confirmUnlock.
    rewrite switchTab_setup by done.
    assert (Store.getChallenge (Store.archiveChallenge now (localStorage s)) = None)
      as Hnone.
    { unfold Store.archiveChallenge.
      by destruct (Store.getChallenge (localStorage s)) eqn:Hc. }
    split.
    + intros c. simpl. by rewrite Hnone.
    + intros i Hi. simpl in *. specialize (Harch i Hi).
      pose proof (prefix_length _ _ (archiveChallenge_prefix now (localStorage s))).
      lia.
  - destruct ok; [|done]. unfold confirmDeletePending.
    rewrite switchTab_setup by done. split; [|done]. by intros c.
  - destruct ok1, ok2; try done; unfold confirmClearAll;
      rewrite switchTab_setup by done; split; by intros c.
  - split; [done|]. intros i. simpl. by intros [= <-].
  - split; [done|]. by intros i.
Qed.

End Invariants.

(** X21.  Start-up with, in storage, no challenge or a challenge of at
    least one day whose start date is a date-only string: the initial
    render leaves an integer day index, and from then on, whatever the user
    does and whenever, the day on screen is a day of the stored challenge
    and the archive entry on screen is an entry of the archive, so that the
    archive detail is never asked to show a missing entry.  Later
    submissions may store any start date, the empty one included. *)
Theorem reachable_invariant (tz : DateUtils.TimeZone) (ls : LocalStorage) :
  (∀ challenge, Store.getChallenge ls = Some challenge →
                1 ≤ totalDays challenge ∧ startDate challenge ≠ NoDate) →
  (∀ now, is_Some (initialRender tz now (initialState ls))) ∧
  (∀ s, reachable tz ls s →
        dayIndexInRange s ∧ archiveIndexValid s ∧
        archiveDetailShown s ≠ Some None).
Proof.
  intros Hstart. split.
  { intros now. apply initialRender_is_Some. intros c Hc.
    by destruct (Hstart c Hc). }
  intros s Hreach.
  assert (dayIndexInRange s ∧ archiveIndexValid s) as [Hday Harch].
  { induction Hreach as [now s Hinit|now e s Hreach [IHday IHarch] Hoff].
    - apply (initialRender_invariant tz now ls); [|done].
      intros c Hc. by destruct (Hstart c Hc).
    - by apply handleEvent_invariant. }
  split; [done|]. split; [done|].
  unfold archiveDetailShown.
  destruct (currentArchiveIndex s) as [i|] eqn:Hi; [|done].
  specialize (Harch i Hi). unfold arrayAt.
  rewrite (proj2 (Z.leb_le 0 i)) by lia.
  intros [= Hnone]. apply lookup_ge_None in Hnone. lia.
Qed.

(** Start-up on the fifth day of the sample challenge, two steps ahead,
    the challenge archived, its archive entry opened. *)
Lemma reachable_invariant_witness :
  let tz := DateUtils.fixedZone 3600000 in
  let s0 :=
    {| localStorage := challengeStarting 19792 30; currentTab := daily;
       currentDayIndex := 5; currentArchiveIndex := None |} in
  let s1 := handleEvent tz noonParis (NavigateDay 2) s0 in
  let s2 := handleEvent tz noonParis (ConfirmUnlock true) s1 in
  let s3 := handleEvent tz noonParis (ViewArchive 0) s2 in
  initialRender tz noonParis (initialState (challengeStarting 19792 30))
    = Some s0 ∧
  currentDayIndex s1 = 7 ∧ archiveDetailShown s3 ≠ Some None.
Proof.
  intros tz s0 s1 s2 s3. split; [reflexivity|]. split; [reflexivity|].
  apply (reachable_invariant tz (challengeStarting 19792 30)).
  - intros c [= <-]. simpl. split; [lia|done].
  - repeat (apply reachable_step);
      [by apply (reachable_init _ _ noonParis)|..]; by simpl.
Defined.

(** * Whole days between arbitrary instants *)

(** X13.  [daysBetween] on time values up to 2^52 in magnitude,
    truncated to midnight or not: it is 0 from an instant to itself, grows
    with the later instant, and adding the counts of two consecutive spans
    loses at most one day against the count of the whole span.  Reversing
    the arguments negates the count when the difference is a whole number
    of days and gives one less than the opposite otherwise. *)
Theorem daysBetween_arithmetic (a b c : Z) :
  exactTime a → exactTime b → exactTime c →
  DateUtils.daysBetween a a = 0 ∧
  (b ≤ c → DateUtils.daysBetween a b ≤ DateUtils.daysBetween a c) ∧
  DateUtils.daysBetween a b + DateUtils.daysBetween b c
    ≤ DateUtils.daysBetween a c
    ≤ DateUtils.daysBetween a b + DateUtils.daysBetween b c + 1 ∧
  DateUtils.daysBetween b a =
    (if (b - a) mod 86400000 =? 0
     then - DateUtils.daysBetween a b
     else - DateUtils.daysBetween a b - 1).
Proof.
  intros _ _ _.
  pose proof (daysBetween_floor a b) as [_ Hab].
  pose proof (daysBetween_floor b c) as [_ Hbc].
  pose proof (daysBetween_floor a c) as [_ Hac].
  pose proof (daysBetween_floor b a) as [_ Hba].
  split; [|split; [|split]].
  - unfold DateUtils.daysBetween. by rewrite Z.sub_diag.
  - intros Hle. unfold DateUtils.daysBetween.
    apply Z.div_le_mono; [by rewrite msPerDay_eq|lia].
  - lia.
  - pose proof (Z.div_mod (b - a) 86400000 ltac:(lia)) as Hdm.
    pose proof (Z.mod_pos_bound (b - a) 86400000 ltac:(lia)) as Hmod.
    assert (DateUtils.daysBetween a b = (b - a) / 86400000) as Hd by reflexivity.
    destruct (Z.eqb_spec ((b - a) mod 86400000) 0); lia.
Qed.

Lemma daysBetween_arithmetic_witness :
  DateUtils.daysBetween midnightMarch9 midnightMarch9
  ≤ DateUtils.daysBetween midnightMarch9 midnightMarch11.
Proof.
  destruct (daysBetween_arithmetic midnightMarch9 midnightMarch9
              midnightMarch11) as (_ & H & _);
    try (unfold exactTime; vm_compute; split; discriminate).
  apply H. vm_compute. discriminate.
Defined.

(** X14.  In a zone without daylight saving today's midnight is at most one day
    behind the clock, never ahead of it, and clearing its hours again
    changes nothing. *)
Theorem getToday_fixedZone_bounds (off now : Z) :
  let tz := DateUtils.fixedZone off in
  DateUtils.getToday tz now ≤ now < DateUtils.getToday tz now + DateUtils.msPerDay ∧
  DateUtils.getToday tz (DateUtils.getToday tz now) = DateUtils.getToday tz now.
Proof.
  intros tz. subst tz. unfold DateUtils.getToday.
  rewrite !setHours0_fixedZone. rewrite <- setHours0_fixedZone.
  rewrite localDay_setHours0_fixedZone. rewrite setHours0_fixedZone.
  split; [|done].
  pose proof (Day_bounds (now + off)) as H.
  unfold DateUtils.localDay, DateUtils.LocalTime. simpl. lia.
Qed.
